(** * Knotting: the file-to-text dispatcher and the heuristic text analyzer

    A shallow embedding of [src/utils/aiAnalysis.ts], of
    [src/utils/fileConverter.ts] and of the functions of the component
    [FileConverter.tsx] that compute, followed by the properties the
    specification states about them and by further properties of the
    code.

    Conventions of the embedding.
    - A JavaScript string is a [string]: a sequence of code units.  Code
      units are the 8-bit range U+0000..U+00FF (Basic Latin and Latin-1);
      on that range the character classes of the regular expressions the
      code uses and the case mapping of [toLowerCase] are written out in
      full below.
    - A [Uint8Array] is a [list byte].
    - A rejected promise or a thrown [Error] is the [Throw] case of
      [result]; [await] is sequencing in that error monad.
    - Browser and library services (FileReader, JSON, mammoth, XLSX,
      pdf.js, Tesseract, JSZip, Image, Date) are fields of a [Platform]
      record: the code calls them, the repository does not define them. *)

From Stdlib Require Import Strings.String Strings.Ascii Strings.Byte.
From Stdlib Require Import List Bool Arith NArith ZArith Lia.
From Stdlib Require Import Sorted DecimalString DecimalN.
Import ListNotations.

Local Open Scope list_scope.
Local Open Scope string_scope.
Local Open Scope nat_scope.

(* ================================================================== *)
(** * JavaScript string primitives used by the two modules *)
(* ================================================================== *)

Module JsString.

Definition code (c : ascii) : nat := nat_of_ascii c.

Definition between (lo hi : nat) (c : ascii) : bool :=
  (lo <=? code c) && (code c <=? hi).

(** [\w] : [A-Za-z0-9_]. *)
Definition isWordChar (c : ascii) : bool :=
  between 97 122 c || between 65 90 c || between 48 57 c || (code c =? 95).

(** [\s] and the set stripped by [trim]: TAB, LF, VT, FF, CR, SPACE and
    NO-BREAK SPACE. *)
Definition isSpaceChar (c : ascii) : bool :=
  between 9 13 c || (code c =? 32) || (code c =? 160).

(** [\W]. *)
Definition isNonWordChar (c : ascii) : bool := negb (isWordChar c).

(** Case mapping of one code unit: A-Z, and the Latin-1 capitals
    U+00C0..U+00DE without the multiplication sign U+00D7. *)
Definition lowerChar (c : ascii) : ascii :=
  if between 65 90 c || (between 192 222 c && negb (code c =? 215))
  then ascii_of_nat (code c + 32)
  else c.

Fixpoint smap (f : ascii -> ascii) (s : string) : string :=
  match s with
  | EmptyString => EmptyString
  | String c r => String (f c) (smap f r)
  end.

Definition toLowerCase (s : string) : string := smap lowerChar s.

(** [s.replace(/[^\w\s]/g, ' ')]. *)
Definition blankPunctuation (s : string) : string :=
  smap (fun c => if isWordChar c || isSpaceChar c then c else " "%char) s.

(** [s.split(/[...]+/)] for a character class [sep]: the pieces between
    the maximal runs of separators.  A run at the start or at the end
    leaves an empty piece there, and the empty string splits into one
    empty piece. *)
Fixpoint splitLoop (sep : ascii -> bool) (s piece : string) (inRun : bool)
  : list string :=
  match s with
  | EmptyString => [piece]
  | String c r =>
      if sep c then
        if inRun then splitLoop sep r "" true
        else piece :: splitLoop sep r "" true
      else splitLoop sep r (piece ++ String c "") false
  end.

Definition split (sep : ascii -> bool) (s : string) : list string :=
  splitLoop sep s "" false.

Fixpoint trimStart (s : string) : string :=
  match s with
  | EmptyString => ""
  | String c r => if isSpaceChar c then trimStart r else s
  end.

Fixpoint trimEnd (s : string) : string :=
  match s with
  | EmptyString => ""
  | String c r =>
      match trimEnd r with
      | EmptyString => if isSpaceChar c then "" else String c ""
      | r' => String c r'
      end
  end.

Definition trim (s : string) : string := trimEnd (trimStart s).

(** [a.join(sep)]. *)
Definition join (sep : string) (l : list string) : string :=
  String.concat sep l.

Fixpoint srev (s : string) : string :=
  match s with
  | EmptyString => ""
  | String c r => srev r ++ String c ""
  end.

Definition startsWith (s p : string) : bool := String.prefix p s.

(** [s] ends with [p] when [p] reversed starts [s] reversed. *)
Definition endsWith (s p : string) : bool := String.prefix (srev p) (srev s).

(** [a.includes(x)] and [set.has(x)] on strings. *)
Definition includes (l : list string) (x : string) : bool :=
  existsb (String.eqb x) l.

(** One Latin-1 code unit as a string. *)
Definition chr (n : nat) : string := String (ascii_of_nat n) "".

(** [a.push(x, y, ...)]. *)
Definition push {A : Type} (a : list A) (xs : list A) : list A :=
  (a ++ xs)%list.

(** [s.repeat(n)]. *)
Fixpoint repeat (s : string) (n : nat) : string :=
  match n with
  | O => ""
  | S k => s ++ repeat s k
  end.

End JsString.

(* ================================================================== *)
(** * [src/utils/aiAnalysis.ts] *)
(* ================================================================== *)

Module AiAnalysis.
Import JsString.

(** ** generateSummary *)

Definition summaryPlaceholder : string :=
  "This document contains structured data or content that requires specialized analysis.".

Definition isSentenceEnd (c : ascii) : bool :=
  Ascii.eqb c "."%char || Ascii.eqb c "!"%char || Ascii.eqb c "?"%char.

Definition sentencesOf (text : string) : list string :=
  filter (fun s => 10 <? String.length (trim s)) (split isSentenceEnd text).

Definition firstSentencesOf (text : string) : string :=
  join ". " (firstn 3 (sentencesOf text)).

Definition generateSummary (text : string) : string :=
  let firstSentences := firstSentencesOf text in
  if 200 <? String.length firstSentences then
    String.substring 0 200 firstSentences ++ "..."
  else if String.eqb firstSentences "" then summaryPlaceholder
  else firstSentences.

(** ** extractKeywords *)

Definition stopWords : list string :=
  [ "this"; "that"; "with"; "have"; "will"; "from"; "they"; "know";
    "want"; "been"; "good"; "much"; "some"; "time"; "very"; "when";
    "come"; "here"; "just"; "like"; "long"; "make"; "many"; "over";
    "such"; "take"; "than"; "them"; "well"; "were"; "what"; "your";
    "about"; "after"; "again"; "before"; "being"; "could"; "every";
    "first"; "found"; "great"; "group"; "large"; "last"; "little";
    "most"; "never"; "only"; "other"; "place"; "right"; "same";
    "should"; "small"; "still"; "those"; "through"; "under"; "where";
    "while"; "work"; "world"; "would"; "years"; "young" ].

(** The tokens before the length filter:
    [text.toLowerCase().replace(/[^\w\s]/g, ' ').split(/\s+/)]. *)
Definition tokensOf (text : string) : list string :=
  split isSpaceChar (blankPunctuation (toLowerCase text)).

Definition longWord (w : string) : bool := 3 <? String.length w.

Definition wordsOf (text : string) : list string :=
  filter longWord (tokensOf text).

(** A [Map<string, number>]: its entries in insertion order.  [mapSet]
    on a present key replaces the value where the entry stands; on an
    absent key it adds the entry at the end. *)
Definition JsMap : Type := list (string * nat).

Fixpoint mapGet (m : JsMap) (k : string) : option nat :=
  match m with
  | [] => None
  | (k', v) :: m' => if String.eqb k' k then Some v else mapGet m' k
  end.

Fixpoint mapSet (m : JsMap) (k : string) (v : nat) : JsMap :=
  match m with
  | [] => [(k, v)]
  | (k', v') :: m' =>
      if String.eqb k' k then (k, v) :: m' else (k', v') :: mapSet m' k v
  end.

(** [x || 0] on the result of [Map.get]. *)
Definition orZero (o : option nat) : nat :=
  match o with
  | Some v => v
  | None => 0
  end.

(** The body of the [forEach] that fills [wordCount]. *)
Definition countWord (wordCount : JsMap) (word : string) : JsMap :=
  if negb (includes stopWords word) && longWord word then
    mapSet wordCount word (orZero (mapGet wordCount word) + 1)
  else wordCount.

Definition wordCountOf (words : list string) : JsMap :=
  fold_left countWord words [].

(** The comparator [(a, b) => b[1] - a[1]]. *)
Definition byCountDesc (a b : string * nat) : Z :=
  (Z.of_nat (snd b) - Z.of_nat (snd a))%Z.

(** [Array.prototype.sort] is stable: [x] goes after the elements the
    comparator puts strictly before it, and before the others.  The
    entries are inserted from the last to the first, so an entry stays
    before the later entries it ties with. *)
Fixpoint sortInsert {A : Type} (cmp : A -> A -> Z) (x : A) (l : list A)
  : list A :=
  match l with
  | [] => [x]
  | y :: l' =>
      if (cmp y x <? 0)%Z then y :: sortInsert cmp x l' else x :: y :: l'
  end.

Fixpoint sort {A : Type} (cmp : A -> A -> Z) (l : list A) : list A :=
  match l with
  | [] => []
  | x :: l' => sortInsert cmp x (sort cmp l')
  end.

Definition extractKeywords (text : string) : list string :=
  map fst (firstn 8 (sort byCountDesc (wordCountOf (wordsOf text)))).

(** ** analyzeSentiment *)

Inductive Sentiment : Type := positive | negative | neutral.

Definition positiveWords : list string :=
  [ "good"; "great"; "excellent"; "amazing"; "wonderful"; "fantastic";
    "love"; "like"; "enjoy"; "happy"; "pleased"; "satisfied"; "success";
    "successful"; "perfect"; "best"; "awesome"; "brilliant";
    "outstanding" ].

Definition negativeWords : list string :=
  [ "bad"; "terrible"; "awful"; "horrible"; "hate"; "dislike"; "angry";
    "sad"; "disappointed"; "frustrated"; "problem"; "issue"; "error";
    "fail"; "failure"; "worst"; "difficult"; "hard"; "impossible" ].

(** [text.toLowerCase().split(/\W+/)]. *)
Definition nonWordSplit (text : string) : list string :=
  split isNonWordChar (toLowerCase text).

(** The two counters after the [forEach]. *)
Definition sentimentCounts (words : list string) : nat * nat :=
  fold_left
    (fun '(positiveCount, negativeCount) word =>
       ((if includes positiveWords word then S positiveCount
         else positiveCount),
        (if includes negativeWords word then S negativeCount
         else negativeCount)))
    words (0, 0).

Definition analyzeSentiment (text : string) : Sentiment :=
  let '(positiveCount, negativeCount) :=
    sentimentCounts (nonWordSplit text) in
  if negativeCount <? positiveCount then positive
  else if positiveCount <? negativeCount then negative
  else neutral.

(** ** detectLanguage *)

Definition commonEnglishWords : list string :=
  [ "the"; "and"; "for"; "are"; "but"; "not"; "you"; "all"; "can"; "had";
    "her"; "was"; "one"; "our"; "out"; "day"; "get"; "has"; "him"; "his";
    "how"; "man"; "new"; "now"; "old"; "see"; "two"; "way"; "who"; "boy";
    "did"; "its"; "let"; "put"; "say"; "she"; "too"; "use" ].

(** The accented letters are written by their code unit:
    233 e-acute, 225 a-acute, 237 i-acute, 224 a-grave, 234
    e-circumflex. *)
Definition commonSpanishWords : list string :=
  [ "que"; "de"; "no"; "a"; "la"; "el"; "es"; "y"; "en"; "lo"; "un";
    "por"; "qu" ++ chr 233; "me"; "una"; "te"; "los"; "se"; "con"; "para";
    "mi"; "est" ++ chr 225; "si"; "bien"; "pero"; "yo"; "eso"; "las";
    "s" ++ chr 237; "su"; "tu"; "aqu" ++ chr 237; "del"; "al"; "como";
    "le"; "m" ++ chr 225 ++ "s"; "esto"; "ya"; "todo" ].

Definition commonFrenchWords : list string :=
  [ "le"; "de"; "et"; chr 224; "un"; "il"; chr 234 ++ "tre"; "et"; "en";
    "avoir"; "que"; "pour"; "dans"; "ce"; "son"; "une"; "sur"; "avec";
    "ne"; "se"; "pas"; "tout"; "plus"; "par"; "grand"; "en"; "une";
    chr 234 ++ "tre"; "et"; "en"; "avoir"; "que"; "pour" ].

(** The three scores after the [forEach]. *)
Definition languageScores (words : list string) : nat * nat * nat :=
  fold_left
    (fun '(englishScore, spanishScore, frenchScore) word =>
       ((if includes commonEnglishWords word then S englishScore
         else englishScore),
        (if includes commonSpanishWords word then S spanishScore
         else spanishScore),
        (if includes commonFrenchWords word then S frenchScore
         else frenchScore)))
    words (0, 0, 0).

(** The chain of [if]s on the scores. *)
Definition pickLanguage (scores : nat * nat * nat) : string :=
  let '(englishScore, spanishScore, frenchScore) := scores in
  if (spanishScore <=? englishScore) && (frenchScore <=? englishScore)
  then "English"
  else if frenchScore <=? spanishScore then "Spanish"
  else if 0 <? frenchScore then "French"
  else "Unknown".

Definition detectLanguage (text : string) : string :=
  pickLanguage (languageScores (firstn 100 (nonWordSplit text))).

End AiAnalysis.

(* ================================================================== *)
(** * [src/utils/fileConverter.ts] *)
(* ================================================================== *)

Module FileConverter.
Import JsString.

(** ** Promises that resolve or reject *)

Inductive result (A : Type) : Type :=
| Ok (value : A)
| Throw (message : string).
Arguments Ok {A} value.
Arguments Throw {A} message.

Definition bind {A B : Type} (r : result A) (k : A -> result B) : result B :=
  match r with
  | Ok a => k a
  | Throw m => Throw m
  end.

(** [try { body } catch (error) { handler }]. *)
Definition tryCatch {A : Type} (body : result A) (handler : string -> result A)
  : result A :=
  match body with
  | Ok a => Ok a
  | Throw m => handler m
  end.

Notation "x <- r ;; k" := (bind r (fun x => k))
  (at level 61, r at next level, right associativity).

(** ** The data the code reads *)

(** The properties of a browser [File] the code reads.  Its bytes are
    reached through the platform ([arrayBuffer], [FileReader]). *)
Record File : Type := mkFile {
  name : string;
  type : string;
  size : N;
  lastModified : Z
}.

(** One entry of a loaded archive: [zipEntry.dir] and
    [zipEntry._data?.uncompressedSize] ([None] when undefined). *)
Record ZipEntry : Type := mkZipEntry {
  relativePath : string;
  dir : bool;
  uncompressedSize : option N
}.

(** The services the code calls and does not define.  Each promise may
    reject and each call may throw: the [Throw] case.
    - [XLSX_read] is [XLSX.read] with [sheet_to_csv] on every sheet: the
      sheets in [SheetNames] order, each with its CSV rendering.
    - [pdfjs_getDocument] is [getDocument] with [getPage] and
      [getTextContent] on every page: per page, the [str] of its
      items. *)
Record Platform : Type := mkPlatform {
  JSONValue : Type;
  JSON_parse : string -> result JSONValue;
  JSON_stringify : JSONValue -> nat -> string;
  FileReader_readAsText : File -> result string;
  File_arrayBuffer : File -> result (list byte);
  mammoth_extractRawText : list byte -> result string;
  XLSX_read : list byte -> result (list (string * string));
  pdfjs_getDocument : list byte -> result (list (list string));
  Tesseract_recognize : File -> result string;
  Image_naturalSize : File -> result (N * N);
  JSZip_loadAsync : File -> result (list ZipEntry);
  Date_toLocaleString : Z -> string
}.

(** ** Numbers as text *)

Definition nl : string := chr 10.

(** A non-negative integer in decimal, as a template literal prints it. *)
Definition decimal (n : N) : string := NilEmpty.string_of_uint (N.to_uint n).

Definition hexDigit (n : N) : string :=
  String.substring (N.to_nat n) 1 "0123456789abcdef".

(** [b.toString(16).padStart(2, '0')]. *)
Definition hex2 (b : byte) : string :=
  (hexDigit (Byte.to_N b / 16) ++ hexDigit (Byte.to_N b mod 16))%N.

(** [toUpperCase], which the code applies to hexadecimal digits only:
    a-z. *)
Definition toUpperCase (s : string) : string :=
  smap (fun c => if between 97 122 c then ascii_of_nat (code c - 32) else c) s.

(** ** formatFileSize

    [bytes] is a byte count: a non-negative integer (below 2^53).
    - [Math.floor(Math.log(bytes) / Math.log(1024))] is the integer
      logarithm to the base 1024, that is [log2 bytes / 10].  The
      quotient of the two double logarithms is the exact integer at a
      power of 1024 and floors to the integer logarithm for every
      count up to 1024^4 and well beyond it; just below 1024^5 and
      the higher powers it can round up to the next integer, and there
      the index is past the table of names either way.
    - [bytes / Math.pow(1024, i)] divides by a power of two, which is
      exact; [toFixed(2)] takes the nearest multiple of 1/100 of that
      exact quotient, the larger one on a tie: [hundredths].
    - [parseFloat] of these digits printed back by [+ ' '] is the
      shortest decimal: the trailing zeros of the fraction go. *)

Definition k : N := 1024.

Definition sizes : list string := ["Bytes"; "KB"; "MB"; "GB"].

Definition unitIndex (bytes : N) : N := (N.log2 bytes / N.log2 k)%N.

Definition hundredths (bytes i : N) : N :=
  ((2 * 100 * bytes + k ^ i) / (2 * k ^ i))%N.

Definition showHundredths (h : N) : string :=
  (let whole := h / 100 in
   let frac := h mod 100 in
   if frac =? 0 then decimal whole
   else if frac mod 10 =? 0 then decimal whole ++ "." ++ decimal (frac / 10)
   else decimal whole ++ "." ++ decimal (frac / 10) ++ decimal (frac mod 10))%N.

(** [sizes[i]] inside a string concatenation: an index outside the
    array reads [undefined], printed as such. *)
Definition sizeName (i : N) : string :=
  match nth_error sizes (N.to_nat i) with
  | Some unit => unit
  | None => "undefined"
  end.

Definition formatFileSize (bytes : N) : string :=
  if (bytes =? 0)%N then "0 Bytes"
  else
    let i := unitIndex bytes in
    showHundredths (hundredths bytes i) ++ " " ++ sizeName i.

(** The same body with the index left to the engine: [floorLog bytes]
    stands for [Math.floor(Math.log(bytes) / Math.log(k))] as the
    doubles of the engine give it.  [formatFileSize] is this function
    at the integer logarithm [unitIndex]; where the quotient of the
    doubles rounds up to the next integer, just below a power of 1024
    from 1024^5 on, [floorLog] is that next integer. *)
Definition formatFileSizeWith (floorLog : N -> N) (bytes : N) : string :=
  if (bytes =? 0)%N then "0 Bytes"
  else
    let i := floorLog bytes in
    showHundredths (hundredths bytes i) ++ " " ++ sizeName i.

(** ** The extraction strategies *)

Section Strategies.
Variable P : Platform.

Definition readTextFile (file : File) : result string :=
  tryCatch (FileReader_readAsText P file)
           (fun _ => Throw "Failed to read file").

Definition convertDocxToText (file : File) : result string :=
  tryCatch
    (arrayBuffer <- File_arrayBuffer P file ;;
     value <- mammoth_extractRawText P arrayBuffer ;;
     Ok value)
    (fun _ => Throw "Failed to convert DOCX file").

Definition sheetText (sheet : string * string) : string :=
  "Sheet: " ++ fst sheet ++ nl ++ repeat "=" 50 ++ nl ++ snd sheet ++ nl ++ nl.

Definition convertExcelToText (file : File) : result string :=
  tryCatch
    (arrayBuffer <- File_arrayBuffer P file ;;
     workbook <- XLSX_read P arrayBuffer ;;
     Ok (fold_left (fun text sheet => text ++ sheetText sheet) workbook ""))
    (fun _ => Throw "Failed to convert Excel file").

(** The loop over the pages, [pageNum] counting from 1. *)
Fixpoint pagesText (pages : list (list string)) (pageNum : N)
         (fullText : string) : string :=
  match pages with
  | [] => fullText
  | items :: rest =>
      pagesText rest (pageNum + 1)
        (fullText ++ "Page " ++ decimal pageNum ++ ":" ++ nl
                  ++ join " " items ++ nl ++ nl)
  end.

Definition convertPdfToText (file : File) : result string :=
  tryCatch
    (arrayBuffer <- File_arrayBuffer P file ;;
     pdf <- pdfjs_getDocument P arrayBuffer ;;
     Ok (trim (pagesText pdf 1 "")))
    (fun _ => Throw "Failed to convert PDF file").

(** The inner [try] swallows a failure to load the image. *)
Definition extractImageMetadata (file : File) : string :=
  let metadata :=
    [ "File: " ++ name file;
      "Type: " ++ type file;
      "Size: " ++ formatFileSize (size file);
      "Last Modified: " ++ Date_toLocaleString P (lastModified file) ] in
  let metadata :=
    match Image_naturalSize P file with
    | Ok (width, height) =>
        push metadata
             ["Dimensions: " ++ decimal width ++ "x" ++ decimal height
                ++ "px"]
    | Throw _ => metadata
    end in
  "Image Metadata:" ++ nl ++ join nl metadata.

Definition convertImageToText (file : File) : result string :=
  tryCatch
    (text <- Tesseract_recognize P file ;;
     if String.eqb (trim text) "" then Ok (extractImageMetadata file)
     else Ok ("OCR Text Content:" ++ nl ++ text ++ nl ++ nl
                ++ extractImageMetadata file))
    (fun _ => Ok (extractImageMetadata file)).

Definition archiveLine (zipEntry : ZipEntry) : string :=
  if negb (dir zipEntry) then
    relativePath zipEntry ++ " ("
      ++ formatFileSize (match uncompressedSize zipEntry with
                         | Some n => n
                         | None => 0%N
                         end)
      ++ ")"
  else relativePath zipEntry ++ " (directory)".

Definition convertArchiveToText (file : File) : result string :=
  tryCatch
    (contents <- JSZip_loadAsync P file ;;
     Ok ("Archive Contents (" ++ name file ++ "):" ++ nl
           ++ repeat "=" 50 ++ nl
           ++ join nl (map archiveLine contents)))
    (fun _ => Throw "Failed to read archive file").

(** *** The binary report *)

Definition signatures : list (string * string) :=
  [ ("89504E47", "PNG Image");
    ("FFD8FFE0", "JPEG Image");
    ("47494638", "GIF Image");
    ("25504446", "PDF Document");
    ("504B0304", "ZIP Archive");
    ("52617221", "RAR Archive");
    ("7F454C46", "ELF Executable");
    ("4D5A9000", "Windows Executable") ].

Fixpoint lookup (table : list (string * string)) (key : string)
  : option string :=
  match table with
  | [] => None
  | (k', v) :: rest => if String.eqb k' key then Some v else lookup rest key
  end.

Definition detectFileSignature (data : list byte) : option string :=
  let hex := toUpperCase (join "" (map hex2 (firstn 4 data))) in
  lookup signatures hex.

Definition printable (char : byte) : bool :=
  ((32 <=? Byte.to_N char) && (Byte.to_N char <=? 126))%N.

(** The loop of [extractStrings] over the bytes from the current one
    on; [strings] is kept in reverse. *)
Fixpoint stringsLoop (data : list byte) (strings : list string)
         (currentString : string) : list string :=
  match data with
  | [] =>
      rev (if 4 <=? String.length currentString
           then currentString :: strings else strings)
  | char :: rest =>
      if printable char then
        stringsLoop rest strings
          (currentString ++ String (ascii_of_byte char) "")
      else
        stringsLoop rest
          (if 4 <=? String.length currentString
           then currentString :: strings else strings)
          ""
  end.

Definition extractStrings (data : list byte) : list string :=
  firstn 100
    (filter (fun s => 4 <=? String.length s) (stringsLoop data [] "")).

Definition extractBinaryFileInfo (file : File) (data : list byte) : string :=
  let info :=
    [ "File: " ++ name file;
      "Type: " ++ (if String.eqb (type file) "" then "Binary file"
                   else type file);
      "Size: " ++ formatFileSize (size file);
      "Last Modified: " ++ Date_toLocaleString P (lastModified file);
      "";
      "File Analysis:";
      "- Binary file with " ++ decimal (N.of_nat (List.length data))
         ++ " bytes";
      "- First 16 bytes (hex): " ++ join " " (map hex2 (firstn 16 data)) ] in
  let info :=
    match detectFileSignature data with
    | Some signature => push info ["- Detected format: " ++ signature]
    | None => info
    end in
  let strings := extractStrings data in
  let info :=
    if 0 <? List.length strings then
      let info := push info [""; "Embedded Strings:"] in
      let info := push info (map (fun s => "- " ++ s) (firstn 20 strings)) in
      if 20 <? List.length strings then
        push info ["... and "
                     ++ decimal (N.of_nat (List.length strings - 20))
                     ++ " more"]
      else info
    else info in
  join nl info.

(** *** The zero-byte scan of the fallback

    [for (let i = 0; i < Math.min(1000, length); i++)] with its
    [break]: [remaining] iterations are left at index [i]. *)
Fixpoint zeroScan (uint8Array : list byte) (i remaining : nat) : bool :=
  match remaining with
  | O => false
  | S remaining' =>
      match nth_error uint8Array i with
      | Some b =>
          if Byte.eqb b x00 then true
          else zeroScan uint8Array (S i) remaining'
      | None => zeroScan uint8Array (S i) remaining'
      end
  end.

Definition isBinary (uint8Array : list byte) : bool :=
  zeroScan uint8Array 0 (Nat.min 1000 (List.length uint8Array)).

(** *** The dispatch conditions, on the lower-cased name and type *)

Definition isTextFile (fileName fileType : string) : bool :=
  startsWith fileType "text/"
  || endsWith fileName ".txt"
  || endsWith fileName ".md"
  || endsWith fileName ".csv".

Definition isJsonFile (fileName fileType : string) : bool :=
  String.eqb fileType "application/json" || endsWith fileName ".json".

Definition isMarkupFile (fileName fileType : string) : bool :=
  String.eqb fileType "application/xml"
  || String.eqb fileType "text/xml"
  || String.eqb fileType "text/html"
  || endsWith fileName ".xml"
  || endsWith fileName ".html"
  || endsWith fileName ".htm".

Definition isScriptFile (fileName fileType : string) : bool :=
  String.eqb fileType "application/javascript"
  || String.eqb fileType "text/javascript"
  || String.eqb fileType "text/css"
  || endsWith fileName ".js"
  || endsWith fileName ".css"
  || endsWith fileName ".ts"
  || endsWith fileName ".tsx"
  || endsWith fileName ".jsx".

Definition docxMime : string :=
  "application/vnd.openxmlformats-officedocument.wordprocessingml.document".

Definition xlsxMime : string :=
  "application/vnd.openxmlformats-officedocument.spreadsheetml.sheet".

Definition isWordFile (fileName fileType : string) : bool :=
  String.eqb fileType docxMime || endsWith fileName ".docx".

Definition isExcelFile (fileName fileType : string) : bool :=
  String.eqb fileType xlsxMime
  || String.eqb fileType "application/vnd.ms-excel"
  || endsWith fileName ".xlsx"
  || endsWith fileName ".xls".

Definition isPdfFile (fileName fileType : string) : bool :=
  String.eqb fileType "application/pdf" || endsWith fileName ".pdf".

Definition isImageFile (fileName fileType : string) : bool :=
  startsWith fileType "image/"
  || endsWith fileName ".png"
  || endsWith fileName ".jpg"
  || endsWith fileName ".jpeg"
  || endsWith fileName ".gif"
  || endsWith fileName ".bmp".

Definition isArchiveFile (fileName : string) : bool :=
  endsWith fileName ".zip" || endsWith fileName ".jar".

Definition isSvgFile (fileName fileType : string) : bool :=
  String.eqb fileType "image/svg+xml" || endsWith fileName ".svg".

Definition isLogFile (fileName : string) : bool :=
  endsWith fileName ".log"
  || endsWith fileName ".cfg"
  || endsWith fileName ".ini".

(** The message of the fallback's [catch]. *)
Definition unsupported (fileType : string) : string :=
  "Unsupported file type: "
    ++ (if String.eqb fileType "" then "unknown" else fileType).

(** *** convertFileToText

    The [console.log] for files above 10MB writes nothing the result
    depends on and is left out. *)
Definition convertFileToText (file : File) : result string :=
  let fileName := toLowerCase (name file) in
  let fileType := toLowerCase (type file) in
  if isTextFile fileName fileType then readTextFile file
  else if isJsonFile fileName fileType then
    text <- readTextFile file ;;
    tryCatch (json <- JSON_parse P text ;; Ok (JSON_stringify P json 2))
             (fun _ => Ok text)
  else if isMarkupFile fileName fileType then readTextFile file
  else if isScriptFile fileName fileType then readTextFile file
  else if isWordFile fileName fileType then convertDocxToText file
  else if isExcelFile fileName fileType then convertExcelToText file
  else if isPdfFile fileName fileType then convertPdfToText file
  else if isImageFile fileName fileType then convertImageToText file
  else if isArchiveFile fileName then convertArchiveToText file
  else if isSvgFile fileName fileType then readTextFile file
  else if isLogFile fileName then readTextFile file
  else
    tryCatch
      (uint8Array <- File_arrayBuffer P file ;;
       if isBinary uint8Array
       then Ok (extractBinaryFileInfo file uint8Array)
       else readTextFile file)
      (fun _ => Throw (unsupported fileType)).

(** *** Which branch takes a file

    The conditions of [convertFileToText] in the order the chain
    tests them, as a classification of its own. *)
Inductive Strategy : Type :=
| TextRule | JsonRule | MarkupRule | ScriptRule | WordRule | ExcelRule
| PdfRule | ImageRule | ArchiveRule | SvgRule | LogRule | FallbackRule.

Definition dispatch (fileName fileType : string) : Strategy :=
  if isTextFile fileName fileType then TextRule
  else if isJsonFile fileName fileType then JsonRule
  else if isMarkupFile fileName fileType then MarkupRule
  else if isScriptFile fileName fileType then ScriptRule
  else if isWordFile fileName fileType then WordRule
  else if isExcelFile fileName fileType then ExcelRule
  else if isPdfFile fileName fileType then PdfRule
  else if isImageFile fileName fileType then ImageRule
  else if isArchiveFile fileName then ArchiveRule
  else if isSvgFile fileName fileType then SvgRule
  else if isLogFile fileName then LogRule
  else FallbackRule.

Definition strategyOf (file : File) : Strategy :=
  dispatch (toLowerCase (name file)) (toLowerCase (type file)).

End Strategies.

End FileConverter.

(* ================================================================== *)
(** * A sample platform and sample files *)
(* ================================================================== *)

Module Samples.
Import JsString FileConverter.

(** JSON values stand for themselves as text; only ["[1]"] parses. *)
Definition samplePlatform : Platform :=
  {| JSONValue := string;
     JSON_parse := fun text =>
       if String.eqb text "[1]" then Ok text
       else Throw "Unexpected token";
     JSON_stringify := fun json indent =>
       "[" ++ nl ++ repeat " " indent ++ "1" ++ nl ++ "]";
     FileReader_readAsText := fun file =>
       if String.eqb (name file) "broken.json" then Ok "{oops"
       else if String.eqb (name file) "locked.dat" then Throw "NotReadableError"
       else Ok "[1]";
     File_arrayBuffer := fun file =>
       if String.eqb (name file) "blob.bin"
          || String.eqb (name file) "damaged.pdf"
       then Ok [x41; x42; x00; x43]
       else Ok [x5b; x31; x5d];
     mammoth_extractRawText := fun _ => Throw "not a DOCX";
     XLSX_read := fun _ => Throw "not a workbook";
     pdfjs_getDocument := fun data =>
       match data with
       | x41 :: _ => Throw "Invalid PDF structure"
       | _ => Ok [["Hello"; "world"]]
       end;
     Tesseract_recognize := fun _ => Throw "worker failed";
     Image_naturalSize := fun _ => Ok (640, 480)%N;
     JSZip_loadAsync := fun _ => Throw "not a zip";
     Date_toLocaleString := fun _ => "1/1/1970, 12:00:00 AM" |}.

Definition serverLog : File := mkFile "server.log" "application/pdf" 3 0.
Definition notesTxt : File := mkFile "Notes.TXT" "" 3 0.
Definition appIni : File := mkFile "app.ini" "" 3 0.
Definition logoSvg : File := mkFile "logo.svg" "image/svg+xml" 3 0.
Definition photoPng : File := mkFile "photo.png" "image/png" 3 0.
Definition letterDocx : File := mkFile "letter.docx" "" 3 0.
Definition tableXlsx : File := mkFile "table.xlsx" "" 3 0.
Definition damagedPdf : File := mkFile "damaged.pdf" "application/pdf" 4 0.
Definition bundleZip : File := mkFile "bundle.zip" "" 3 0.
Definition brokenJson : File := mkFile "broken.json" "application/json" 5 0.
Definition goodJson : File := mkFile "good.json" "application/json" 3 0.
Definition blobBin : File := mkFile "blob.bin" "" 4 0.
Definition plainDat : File := mkFile "plain.dat" "" 3 0.

(** A platform with another OCR: the other services are those of [P]. *)
Definition withOcr (P : Platform) (ocr : File -> result string) : Platform :=
  {| JSONValue := JSONValue P;
     JSON_parse := JSON_parse P;
     JSON_stringify := JSON_stringify P;
     FileReader_readAsText := FileReader_readAsText P;
     File_arrayBuffer := File_arrayBuffer P;
     mammoth_extractRawText := mammoth_extractRawText P;
     XLSX_read := XLSX_read P;
     pdfjs_getDocument := pdfjs_getDocument P;
     Tesseract_recognize := ocr;
     Image_naturalSize := Image_naturalSize P;
     JSZip_loadAsync := JSZip_loadAsync P;
     Date_toLocaleString := Date_toLocaleString P |}.

(** The sample platform with an OCR that reads: white space only on
    [blank.png], the word HELLO on every other file. *)
Definition readingPlatform : Platform :=
  withOcr samplePlatform
          (fun file =>
             if String.eqb (name file) "blank.png" then Ok ("  " ++ nl)
             else Ok "HELLO").

Definition blankPng : File := mkFile "blank.png" "image/png" 3 0.

(** The index of [formatFileSize] as the doubles give it at
    1024^5 - 1, where the quotient of the logarithms rounds to 5. *)
Definition roundedLog (bytes : N) : N :=
  if (bytes =? 1125899906842623)%N then 5%N else unitIndex bytes.

End Samples.

(* ================================================================== *)
(** * The notions the statements are made of *)
(* ================================================================== *)

Module Notions.
Import JsString AiAnalysis FileConverter.

(** How often a token occurs among the tokens of a text, and where it
    occurs first. *)
Definition frequency (tokens : list string) (w : string) : nat :=
  count_occ string_dec tokens w.

Fixpoint firstIndex (w : string) (tokens : list string) : nat :=
  match tokens with
  | [] => 0
  | t :: rest => if String.eqb t w then 0 else S (firstIndex w rest)
  end.

(** [a] is ranked before [b]: it is more frequent, or as frequent and
    met first. *)
Definition rankedBefore (tokens : list string) (a b : string) : Prop :=
  frequency tokens b < frequency tokens a
  \/ (frequency tokens a = frequency tokens b
      /\ firstIndex a tokens < firstIndex b tokens).

(** The test of [countWord]. *)
Definition isKeyword (w : string) : bool :=
  negb (includes stopWords w) && longWord w.

(** The order of the sorted entries: the larger count first, and for
    equal counts the entry that stood first, [pos] telling where a key
    stood. *)
Definition entryBefore (pos : string -> nat) (a b : string * nat) : Prop :=
  snd b < snd a \/ (snd a = snd b /\ pos (fst a) < pos (fst b)).

(** What the map holds after the words [seen] so far: the keys are the
    keywords met, each once, in the order of their first occurrence,
    and each value is the number of occurrences. *)
Record Counted (seen : list string) (m : JsMap) : Prop := {
  counted_nodup : NoDup (map fst m);
  counted_keys : forall w, In w (map fst m) <-> In w seen /\ isKeyword w = true;
  counted_values : forall w v, In (w, v) m -> v = frequency seen w;
  counted_order :
    StronglySorted (fun a b => firstIndex a seen < firstIndex b seen)
                   (map fst m)
}.

(** The declared types that a rule before the SVG and log rules tests
    and that does not read the file as text: JSON, the document, the
    two spreadsheet types, PDF and every [image/] type. *)
Definition earlierTypeRule (fileType : string) : bool :=
  String.eqb fileType "application/json"
  || String.eqb fileType docxMime
  || String.eqb fileType xlsxMime
  || String.eqb fileType "application/vnd.ms-excel"
  || String.eqb fileType "application/pdf"
  || startsWith fileType "image/".

Definition firstRuleEndings : list string := [".txt"; ".md"; ".csv"].
Definition lateRuleEndings : list string := [".svg"; ".log"; ".cfg"; ".ini"].

Definition productReview : string :=
  "I love this great product. It works perfectly.".

End Notions.

(* ================================================================== *)
(** * Further notions, for the rest of the two modules *)
(* ================================================================== *)

Module Vocabulary.
Import JsString AiAnalysis FileConverter Notions.

(** Every code unit of [s] passes [f]. *)
Fixpoint sforall (f : ascii -> bool) (s : string) : bool :=
  match s with
  | EmptyString => true
  | String c r => f c && sforall f r
  end.

(** [a-z0-9_]: the word characters that lower-casing leaves. *)
Definition isKeywordChar (c : ascii) : bool :=
  between 97 122 c || between 48 57 c || (code c =? 95).

(** The entries of the Spanish and French lists that hold a letter
    outside [\w]. *)
Definition accentedEntries : list string :=
  filter (fun w => negb (sforall isWordChar w))
         (commonSpanishWords ++ commonFrenchWords)%list.

(** The tokens of a list that a word list holds. *)
Definition hits (wordList words : list string) : nat :=
  List.length (filter (includes wordList) words).

(** Printable ASCII, as a code unit: 32 to 126. *)
Definition printableAscii (c : ascii) : bool := between 32 126 c.

(** The bytes that follow the bytes [pre] do not continue a printable
    run, and the bytes [post] do not continue one that ends before
    them. *)
Definition endsUnprintable (pre : list byte) : Prop :=
  pre = [] \/ exists pre' b, pre = (pre' ++ [b])%list /\ printable b = false.

Definition startsUnprintable (post : list byte) : Prop :=
  match post with
  | [] => True
  | b :: _ => printable b = false
  end.

(** [s] is a maximal run of printable bytes of [data]. *)
Definition isRun (data : list byte) (s : string) : Prop :=
  sforall printableAscii s = true
  /\ exists pre post,
      data = (pre ++ list_byte_of_string s ++ post)%list
      /\ endsUnprintable pre /\ startsUnprintable post.

(** What a string collected from [data] has to be. *)
Definition collected (data : list byte) (s : string) : Prop :=
  4 <= String.length s /\ isRun data s.

(** The value of a hexadecimal digit, of either case. *)
Definition hexDigitValue (c : ascii) : option N :=
  if between 48 57 c then Some (N.of_nat (code c - 48))
  else if between 97 102 c then Some (N.of_nat (code c - 87))
  else if between 65 70 c then Some (N.of_nat (code c - 55))
  else None.

(** The bytes that a text of hexadecimal digit pairs spells. *)
Fixpoint unhex (s : string) : option (list byte) :=
  match s with
  | EmptyString => Some []
  | String hi (String lo rest) =>
      match hexDigitValue hi, hexDigitValue lo, unhex rest with
      | Some h, Some l, Some bytes =>
          match Byte.of_N (16 * h + l) with
          | Some b => Some (b :: bytes)
          | None => None
          end
      | _, _, _ => None
      end
  | String _ EmptyString => None
  end.

(** The table of [detectFileSignature], the magic numbers as bytes. *)
Definition magicNumbers : list (list byte * string) :=
  [ ([x89; x50; x4e; x47], "PNG Image");
    ([xff; xd8; xff; xe0], "JPEG Image");
    ([x47; x49; x46; x38], "GIF Image");
    ([x25; x50; x44; x46], "PDF Document");
    ([x50; x4b; x03; x04], "ZIP Archive");
    ([x52; x61; x72; x21], "RAR Archive");
    ([x7f; x45; x4c; x46], "ELF Executable");
    ([x4d; x5a; x90; x00], "Windows Executable") ].

(** The one message with which the conversion of a file can fail, by
    the rule that takes the file. *)
Definition failureMessage (file : File) : string :=
  match strategyOf file with
  | WordRule => "Failed to convert DOCX file"
  | ExcelRule => "Failed to convert Excel file"
  | PdfRule => "Failed to convert PDF file"
  | ArchiveRule => "Failed to read archive file"
  | FallbackRule => unsupported (toLowerCase (type file))
  | _ => "Failed to read file"
  end.

(** The block of one page of a PDF. *)
Definition pageBlock (pageNum : N) (items : list string) : string :=
  "Page " ++ decimal pageNum ++ ":" ++ nl ++ join " " items ++ nl ++ nl.

(** The blocks of the pages, numbered from [first] on. *)
Fixpoint pageBlocks (first : N) (pages : list (list string)) : list string :=
  match pages with
  | [] => []
  | items :: rest => pageBlock first items :: pageBlocks (first + 1) rest
  end.

End Vocabulary.

(* ================================================================== *)
(** * The rest of [aiAnalysis.ts] and the component that calls the two
      modules ([FileConverter.tsx])

    Of the component, the functions that compute: the batch conversion,
    the analysis of one file, the names and paths of the downloads and
    the entries of the archive.  The state that only drives the display
    (drag highlight, busy flag, progress bar, which [processFiles]
    leaves at 0) is left out: no function below reads it. *)
(* ================================================================== *)

Module Component.
Import JsString AiAnalysis FileConverter Vocabulary.

(** ** [analyzeTextWithAI] and [summarizeText]

    Both wait on a timer and then compute; the value they resolve to is
    modelled, the delay is not. *)
Record AIAnalysis : Type := mkAIAnalysis {
  summary : string;
  keywords : list string;
  sentiment : Sentiment;
  language : string
}.

Definition analyzeTextWithAI (text : string) : AIAnalysis :=
  {| summary := generateSummary text;
     keywords := extractKeywords text;
     sentiment := analyzeSentiment text;
     language := detectLanguage text |}.

Definition summarizeText (text : string) : string := generateSummary text.

(** The string a sentiment is. *)
Definition sentimentText (s : Sentiment) : string :=
  match s with
  | positive => "positive"
  | negative => "negative"
  | neutral => "neutral"
  end.

(** ** A converted file *)

Module ConvertedFile.
Record t : Type := mk {
  id : string;
  name : string;
  originalType : string;
  textContent : string;
  size : N;
  relativePath : string;
  isFromFolder : bool;
  aiAnalysis : option AIAnalysis;
  isAnalyzing : option bool
}.
End ConvertedFile.

(** The state of the component that its functions compute with. *)
Record State : Type := mkState {
  convertedFiles : list ConvertedFile.t;
  error : option string;
  selectedFile : option ConvertedFile.t
}.

(** ** Names and paths *)

Definition isExtensionChar (c : ascii) : bool :=
  negb (Ascii.eqb c "/"%char || Ascii.eqb c "."%char).

(** [name.replace(/\.[^/.]+$/, '')]: the first place where a dot is
    followed, up to the end, by one or more code units that are neither
    a slash nor a dot; the text is cut there. *)
Fixpoint stripExtension (s : string) : string :=
  match s with
  | EmptyString => ""
  | String c r =>
      if Ascii.eqb c "."%char && negb (String.eqb r "")
         && sforall isExtensionChar r
      then ""
      else String c (stripExtension r)
  end.

(** [s.split(sep)] for a separator of one code unit: the pieces between
    the occurrences, empty ones included. *)
Fixpoint splitChar (sep : ascii) (s : string) : list string :=
  match s with
  | EmptyString => [""]
  | String c r =>
      if Ascii.eqb c sep then "" :: splitChar sep r
      else match splitChar sep r with
           | piece :: pieces => String c piece :: pieces
           | [] => [String c ""]
           end
  end.

(** The [download] name of [downloadAsText]. *)
Definition downloadName (file : ConvertedFile.t) : string :=
  stripExtension (ConvertedFile.name file) ++ ".txt".

(** The template of the analysis report, trimmed. *)
Definition analysisContent (file : ConvertedFile.t) (analysis : AIAnalysis)
  : string :=
  trim (nl ++ "AI Analysis for: " ++ ConvertedFile.name file ++ nl
           ++ repeat "=" 50 ++ nl
           ++ nl
           ++ "Summary:" ++ nl
           ++ summary analysis ++ nl
           ++ nl
           ++ "Keywords: " ++ join ", " (keywords analysis) ++ nl
           ++ "Sentiment: " ++ sentimentText (sentiment analysis) ++ nl
           ++ "Language: " ++ language analysis ++ nl
           ++ "        ").

(** ** The archive: the calls of [zip.file(path, content)], in order *)

(** The body of the [forEach] over the files added one by one. *)
Definition individualWrites (file : ConvertedFile.t) : list (string * string) :=
  let fileName := stripExtension (ConvertedFile.name file) ++ ".txt" in
  (fileName, ConvertedFile.textContent file)
  :: match ConvertedFile.aiAnalysis file with
     | Some analysis =>
         let analysisFileName :=
           stripExtension (ConvertedFile.name file) ++ "_analysis.txt" in
         [(analysisFileName, analysisContent file analysis)]
     | None => []
     end.

(** The full path under which a file from a folder is written. *)
Definition folderPathOf (suffix relativePath : string) : string :=
  let pathParts := splitChar "/" relativePath in
  let fileName := List.last pathParts "" in
  let folderPath := join "/" (removelast pathParts) in
  let newFileName := stripExtension fileName ++ suffix in
  if String.eqb folderPath "" then newFileName
  else folderPath ++ "/" ++ newFileName.

(** The body of the [forEach] over the files that came with a folder. *)
Definition folderWrites (file : ConvertedFile.t) : list (string * string) :=
  (folderPathOf ".txt" (ConvertedFile.relativePath file),
   ConvertedFile.textContent file)
  :: match ConvertedFile.aiAnalysis file with
     | Some analysis =>
         [(folderPathOf "_analysis.txt" (ConvertedFile.relativePath file),
           analysisContent file analysis)]
     | None => []
     end.

(** [downloadAllAsZip], up to the download itself. *)
Definition zipWrites (convertedFiles : list ConvertedFile.t)
  : list (string * string) :=
  let folderFiles := filter ConvertedFile.isFromFolder convertedFiles in
  let individualFiles :=
    filter (fun f => negb (ConvertedFile.isFromFolder f)) convertedFiles in
  (flat_map individualWrites individualFiles
     ++ flat_map folderWrites folderFiles)%list.

(** ** The functions on the state *)

Section Handlers.
Variable P : Platform.
(** [Date.now()] while the file at index [i] is converted: milliseconds
    since 1970. *)
Variable Date_now : nat -> N.
(** [file.webkitRelativePath], which the browser sets for the files of
    a chosen folder; empty otherwise. *)
Variable webkitRelativePath : File -> string.

Definition convertedFileOf (file : File) (i : nat) (isFromFolder : bool)
           (textContent : string) : ConvertedFile.t :=
  {| ConvertedFile.id := decimal (Date_now i) ++ "-" ++ decimal (N.of_nat i);
     ConvertedFile.name := FileConverter.name file;
     ConvertedFile.originalType :=
       if String.eqb (type file) "" then "unknown" else type file;
     ConvertedFile.textContent := textContent;
     ConvertedFile.size := FileConverter.size file;
     ConvertedFile.relativePath :=
       if isFromFolder && negb (String.eqb (webkitRelativePath file) "")
       then webkitRelativePath file
       else FileConverter.name file;
     ConvertedFile.isFromFolder := isFromFolder;
     ConvertedFile.aiAnalysis := None;
     ConvertedFile.isAnalyzing := None |}.

(** The [for] loop of [processFiles] from index [i] on: [results] and
    the error message so far. *)
Fixpoint processLoop (files : list File) (i : nat) (isFromFolder : bool)
         (results : list ConvertedFile.t) (error : option string)
  : list ConvertedFile.t * option string :=
  match files with
  | [] => (results, error)
  | file :: rest =>
      match convertFileToText P file with
      | Ok textContent =>
          processLoop rest (S i) isFromFolder
            (push results [convertedFileOf file i isFromFolder textContent])
            error
      | Throw message =>
          processLoop rest (S i) isFromFolder results
            (Some ("Failed to convert " ++ FileConverter.name file ++ ": "
                     ++ message))
      end
  end.

Definition processFiles (files : list File) (isFromFolder : bool)
           (st : State) : State :=
  let '(results, error) := processLoop files 0 isFromFolder [] (error st) in
  {| convertedFiles := (convertedFiles st ++ results)%list;
     error := error;
     selectedFile := selectedFile st |}.

Definition handleDrop (files : list File) (st : State) : State :=
  processFiles files false
    {| convertedFiles := convertedFiles st;
       error := None;
       selectedFile := selectedFile st |}.

Definition handleFileSelect (files : list File) (st : State) : State :=
  processFiles files false st.

Definition handleFolderSelect (files : list File) (st : State) : State :=
  processFiles files true st.

End Handlers.

(** [analyzeWithAI]: the analysis does not throw, so the [catch] is
    never entered; every file with the id of [file] gets the analysis of
    the text of [file]. *)
Definition analyzeWithAI (file : ConvertedFile.t) (st : State) : State :=
  let analysis := analyzeTextWithAI (ConvertedFile.textContent file) in
  {| convertedFiles :=
       map (fun f =>
              if String.eqb (ConvertedFile.id f) (ConvertedFile.id file)
              then
                {| ConvertedFile.id := ConvertedFile.id f;
                   ConvertedFile.name := ConvertedFile.name f;
                   ConvertedFile.originalType :=
                     ConvertedFile.originalType f;
                   ConvertedFile.textContent := ConvertedFile.textContent f;
                   ConvertedFile.size := ConvertedFile.size f;
                   ConvertedFile.relativePath :=
                     ConvertedFile.relativePath f;
                   ConvertedFile.isFromFolder :=
                     ConvertedFile.isFromFolder f;
                   ConvertedFile.aiAnalysis := Some analysis;
                   ConvertedFile.isAnalyzing := Some false |}
              else f)
           (convertedFiles st);
     error := error st;
     selectedFile := selectedFile st |}.

Definition clearFiles (st : State) : State :=
  {| convertedFiles := []; error := None; selectedFile := None |}.

Definition removeFile (fileId : string) (st : State) : State :=
  {| convertedFiles :=
       filter (fun f => negb (String.eqb (ConvertedFile.id f) fileId))
              (convertedFiles st);
     error := error st;
     selectedFile :=
       match selectedFile st with
       | Some f =>
           if String.eqb (ConvertedFile.id f) fileId then None else Some f
       | None => None
       end |}.

End Component.

(* ================================================================== *)
(** * Notions for the component *)
(* ================================================================== *)

Module ComponentNotions.
Import JsString FileConverter Vocabulary Component.

(** The conversion of the file succeeds. *)
Definition converts (P : Platform) (file : File) : bool :=
  match convertFileToText P file with
  | Ok _ => true
  | Throw _ => false
  end.

(** The message that [processFiles] leaves: the one of the last file of
    the batch that failed, or the message from before. *)
Definition batchError (P : Platform) (files : list File)
           (before : option string) : option string :=
  match rev (filter (fun f => negb (converts P f)) files) with
  | [] => before
  | file :: _ =>
      Some ("Failed to convert " ++ FileConverter.name file ++ ": "
              ++ failureMessage file)
  end.

(** A result stands for a file of the batch. *)
Definition resultOf (P : Platform) (isFromFolder : bool)
           (r : ConvertedFile.t) (file : File) : Prop :=
  ConvertedFile.name r = FileConverter.name file
  /\ convertFileToText P file = Ok (ConvertedFile.textContent r)
  /\ ConvertedFile.size r = FileConverter.size file
  /\ ConvertedFile.isFromFolder r = isFromFolder
  /\ ConvertedFile.aiAnalysis r = None.

(** The id given to the file at index [i] of a batch. *)
Definition batchId (Date_now : nat -> N) (i : nat) : string :=
  decimal (Date_now i) ++ "-" ++ decimal (N.of_nat i).

Definition isSlashFree (s : string) : bool :=
  sforall (fun c => negb (Ascii.eqb c "/"%char)) s.

Definition analysed (f : ConvertedFile.t) : bool :=
  match ConvertedFile.aiAnalysis f with
  | Some _ => true
  | None => false
  end.

(** The report without the padding of its template. *)
Definition reportText (fileName : string) (analysis : AIAnalysis) : string :=
  "AI Analysis for: " ++ fileName ++ nl
    ++ repeat "=" 50 ++ nl
    ++ nl
    ++ "Summary:" ++ nl
    ++ summary analysis ++ nl
    ++ nl
    ++ "Keywords: " ++ join ", " (keywords analysis) ++ nl
    ++ "Sentiment: " ++ sentimentText (sentiment analysis) ++ nl
    ++ "Language: " ++ language analysis.

End ComponentNotions.

(** A clock, a batch and one of its files, for the component. *)
Module ComponentSamples.
Import JsString FileConverter Samples Component.

Definition sampleClock (i : nat) : N := 1700000000000.
Definition noFolder (file : File) : string := "".
Definition sampleBatch : State :=
  processFiles samplePlatform sampleClock noFolder
               [notesTxt; letterDocx; photoPng] false (mkState [] None None).
Definition sampleChosen : ConvertedFile.t :=
  ConvertedFile.mk "1700000000000-0" "Notes.TXT" "unknown" "[1]" 3 "Notes.TXT"
                   false None None.

(** Two converted files whose names differ in the extension only. *)
Definition reportPdf : ConvertedFile.t :=
  ConvertedFile.mk "1700000000000-0" "report.pdf" "application/pdf" "pages" 5
                   "report.pdf" false None None.
Definition reportDocx : ConvertedFile.t :=
  ConvertedFile.mk "1700000000000-1" "report.docx" "unknown" "letter" 6
                   "report.docx" false None None.

End ComponentSamples.

Import JsString AiAnalysis FileConverter Samples Notions Vocabulary.

(* ================================================================== *)
(** * Facts about the string primitives *)
(* ================================================================== *)

Section StringFacts.




Lemma append_assoc (s t u : string) : (s ++ t) ++ u = s ++ (t ++ u).
Proof.
  induction s as [|c s IH]; simpl; [reflexivity | now rewrite IH].
Qed.

Lemma srev_append (s t : string) : srev (s ++ t) = srev t ++ srev s.
Proof.
  induction s as [|c s IH]; simpl.
  - induction (srev t) as [|d r IHr]; simpl; [reflexivity | now rewrite <- IHr].
  - now rewrite IH, append_assoc.
Qed.

Lemma prefix_append (p s t : string) :
  String.prefix p s = true -> String.prefix p (s ++ t) = true.
Proof.
  revert s; induction p as [|a p IH]; intros [|b s]; simpl; auto.
  - now destruct t.
  - discriminate.
  - destruct (ascii_dec a b); [apply IH | discriminate].
Qed.

(** Two prefixes of one string: one is a prefix of the other. *)
Lemma prefix_comparable (p q r : string) :
  String.prefix p r = true -> String.prefix q r = true ->
  String.prefix p q || String.prefix q p = true.
Proof.
  revert p q; induction r as [|c r IH]; intros [|a p] [|b q]; simpl; auto;
    try discriminate.
  destruct (ascii_dec a c) as [->|]; [|discriminate].
  destruct (ascii_dec b c) as [->|]; [|intros _ H; discriminate H].
  destruct (ascii_dec c c) as [_|n]; [apply IH | now destruct n].
Qed.

(** A name has one extension: two endings of one name are comparable. *)
Lemma endsWith_comparable (s a b : string) :
  endsWith s a = true -> endsWith s b = true ->
  String.prefix (srev a) (srev b) || String.prefix (srev b) (srev a) = true.
Proof.
  unfold endsWith; apply prefix_comparable.
Qed.

Lemma endsWith_exclusive (s a b : string) :
  String.prefix (srev a) (srev b) || String.prefix (srev b) (srev a) = false ->
  endsWith s a = true -> endsWith s b = false.
Proof.
  intros Hab Ha; destruct (endsWith s b) eqn:Hb; [|reflexivity].
  now rewrite (endsWith_comparable s a b Ha Hb) in Hab.
Qed.

Lemma includes_In (l : list string) (x : string) :
  includes l x = true <-> In x l.
Proof.
  unfold includes; rewrite existsb_exists; split.
  - intros (y & Hy & E); apply String.eqb_eq in E; now subst.
  - intros H; exists x; split; [assumption | apply String.eqb_refl].
Qed.

Lemma includes_not_In (l : list string) (x : string) :
  includes l x = false <-> ~ In x l.
Proof.
  rewrite <- includes_In; destruct (includes l x); split; congruence.
Qed.

End StringFacts.

(* ================================================================== *)
(** * The summary *)
(* ================================================================== *)

Section Summary.


Lemma sentencesOf_long (text s : string) :
  In s (sentencesOf text) -> 10 < String.length (trim s).
Proof.
  unfold sentencesOf; rewrite filter_In; intros [_ H].
  now apply Nat.ltb_lt.
Qed.



End Summary.

(* ================================================================== *)
(** * Sentiment and language *)
(* ================================================================== *)

Section SentimentAndLanguage.

(** C7. On the review "I love this great product. It works perfectly."
    the sentiment is [positive]: of the tokens of the lower-cased text
    split at non-word runs, exactly two are in the positive list and
    none is in the negative list. *)
Theorem analyzeSentiment_product_review :
  analyzeSentiment productReview = positive
  /\ sentimentCounts (nonWordSplit productReview) = (2, 0)
  /\ filter (includes positiveWords) (nonWordSplit productReview)
     = ["love"; "great"]
  /\ filter (includes negativeWords) (nonWordSplit productReview) = [].
Proof.
  repeat split; vm_compute; reflexivity.
Qed.

Lemma pickLanguage_cases (englishScore spanishScore frenchScore : nat) :
  pickLanguage (englishScore, spanishScore, frenchScore) = "English"
  \/ pickLanguage (englishScore, spanishScore, frenchScore) = "Spanish"
  \/ pickLanguage (englishScore, spanishScore, frenchScore) = "French".
Proof.
  unfold pickLanguage.
  destruct (spanishScore <=? englishScore) eqn:Hse;
    destruct (frenchScore <=? englishScore) eqn:Hfe; simpl; auto;
    destruct (frenchScore <=? spanishScore) eqn:Hfs; auto;
    destruct (0 <? frenchScore) eqn:Hf; auto;
    apply Nat.ltb_ge in Hf; apply Nat.leb_gt in Hfs; lia.
Qed.

(** C9. The language guess is never "Unknown": it is one of "English",
    "Spanish" and "French" for every text; scores that are all zero
    give "English", and so does the empty text. *)
Theorem detectLanguage_never_unknown (text : string) :
  detectLanguage text <> "Unknown"
  /\ (detectLanguage text = "English"
      \/ detectLanguage text = "Spanish"
      \/ detectLanguage text = "French")
  /\ pickLanguage (0, 0, 0) = "English"
  /\ detectLanguage "" = "English".
Proof.
  unfold detectLanguage.
  destruct (languageScores (firstn 100 (nonWordSplit text)))
    as [[englishScore spanishScore] frenchScore].
  pose proof (pickLanguage_cases englishScore spanishScore frenchScore) as H.
  repeat split; try reflexivity; [|exact H].
  destruct H as [-> | [-> | ->]]; discriminate.
Qed.

End SentimentAndLanguage.

(* ================================================================== *)
(** * The keywords *)
(* ================================================================== *)

Section Keywords.

(** ** Lists sorted for a relation *)

Lemma StronglySorted_snoc {A : Type} (R : A -> A -> Prop) (l : list A) (x : A) :
  StronglySorted R l -> Forall (fun a => R a x) l ->
  StronglySorted R (l ++ [x])%list.
Proof.
  induction 1 as [|a l Hl IH Ha]; intros Hx; simpl.
  - constructor; constructor.
  - inversion Hx; subst; constructor; [now apply IH|].
    apply Forall_app; split; [assumption | now constructor].
Qed.

Lemma StronglySorted_weaken {A : Type} (R R' : A -> A -> Prop) (l : list A) :
  (forall a b, In a l -> In b l -> R a b -> R' a b) ->
  StronglySorted R l -> StronglySorted R' l.
Proof.
  intros Himp H; induction H as [|a l Hl IH Ha]; constructor.
  - apply IH; intros x y Hx Hy; apply Himp; now right.
  - rewrite Forall_forall in *; intros b Hb.
    apply Himp; [now left | now right | now apply Ha].
Qed.

Lemma StronglySorted_map {A B : Type} (f : A -> B) (R : B -> B -> Prop)
      (l : list A) :
  StronglySorted (fun a b => R (f a) (f b)) l <-> StronglySorted R (map f l).
Proof.
  induction l as [|a l IH]; simpl; split; intros H;
    try (constructor; fail);
    apply StronglySorted_inv in H; destruct H as [Hl Ha];
    constructor; try (now apply IH).
  - rewrite Forall_map; assumption.
  - rewrite Forall_map in Ha; assumption.
Qed.

Lemma In_firstn {A : Type} (n : nat) (l : list A) (x : A) :
  In x (firstn n l) -> In x l.
Proof.
  rewrite <- (firstn_skipn n l) at 2; rewrite in_app_iff; now left.
Qed.

Lemma StronglySorted_firstn {A : Type} (R : A -> A -> Prop) (n : nat)
      (l : list A) :
  StronglySorted R l -> StronglySorted R (firstn n l).
Proof.
  revert l; induction n as [|n IH]; intros [|a l] H; simpl;
    try (constructor; fail).
  apply StronglySorted_inv in H; destruct H as [Hl Ha].
  constructor; [now apply IH|].
  rewrite Forall_forall in *; intros b Hb; apply Ha.
  now apply (In_firstn n l).
Qed.

(** ** First occurrences *)

Lemma firstIndex_lt (w : string) (l : list string) :
  In w l -> firstIndex w l < List.length l.
Proof.
  induction l as [|t l IH]; simpl; [contradiction|].
  intros [->|H].
  - rewrite String.eqb_refl; lia.
  - destruct (String.eqb t w); [lia | apply IH in H; lia].
Qed.

Lemma firstIndex_app_In (w : string) (l r : list string) :
  In w l -> firstIndex w (l ++ r)%list = firstIndex w l.
Proof.
  induction l as [|t l IH]; simpl; [contradiction|].
  intros [->|H].
  - now rewrite String.eqb_refl.
  - destruct (String.eqb t w); [reflexivity | now rewrite IH].
Qed.

Lemma firstIndex_snoc_new (w : string) (l : list string) :
  ~ In w l -> firstIndex w (l ++ [w])%list = List.length l.
Proof.
  induction l as [|t l IH]; simpl; intros H.
  - now rewrite String.eqb_refl.
  - destruct (String.eqb_spec t w) as [->|_]; [exfalso; auto|].
    rewrite IH; auto.
Qed.

Lemma frequency_snoc (l : list string) (w k : string) :
  frequency (l ++ [w])%list k
  = frequency l k + (if String.eqb w k then 1 else 0).
Proof.
  unfold frequency; rewrite count_occ_app; simpl.
  destruct (string_dec w k) as [->|n].
  - now rewrite String.eqb_refl.
  - apply String.eqb_neq in n; now rewrite n.
Qed.

(** ** The map *)

Lemma mapGet_None (m : JsMap) (k : string) :
  mapGet m k = None <-> ~ In k (map fst m).
Proof.
  induction m as [|[k' v'] m IH]; simpl; [tauto|].
  destruct (String.eqb_spec k' k) as [->|n]; split.
  - discriminate.
  - intros H; exfalso; auto.
  - intros H [E|Hin]; [contradiction | now apply IH in H].
  - intros H; apply IH; auto.
Qed.

Lemma mapGet_Some_In (m : JsMap) (k : string) (v : nat) :
  mapGet m k = Some v -> In (k, v) m.
Proof.
  induction m as [|[k' v'] m IH]; simpl; [discriminate|].
  destruct (String.eqb_spec k' k) as [->|n].
  - intros [= ->]; now left.
  - intros H; right; now apply IH.
Qed.

Lemma mapSet_absent (m : JsMap) (k : string) (v : nat) :
  mapGet m k = None -> mapSet m k v = (m ++ [(k, v)])%list.
Proof.
  induction m as [|[k' v'] m IH]; simpl; [reflexivity|].
  destruct (String.eqb k' k); [discriminate|].
  intros H; now rewrite IH.
Qed.

Lemma mapSet_present_keys (m : JsMap) (k : string) (v v0 : nat) :
  mapGet m k = Some v0 -> map fst (mapSet m k v) = map fst m.
Proof.
  induction m as [|[k' v'] m IH]; simpl; [discriminate|].
  destruct (String.eqb_spec k' k) as [->|n]; simpl.
  - reflexivity.
  - intros H; now rewrite IH.
Qed.

Lemma mapSet_present_In (m : JsMap) (k : string) (v : nat) :
  NoDup (map fst m) ->
  forall k' v', In (k', v') (mapSet m k v) ->
                (k' = k /\ v' = v) \/ (k' <> k /\ In (k', v') m).
Proof.
  induction m as [|[k0 v0] m IH]; simpl; intros Hnd k' v' Hin.
  - destruct Hin as [[= <- <-]|[]]; now left.
  - apply NoDup_cons_iff in Hnd; destruct Hnd as [Hk0 Hnd].
    destruct (String.eqb_spec k0 k) as [->|n]; simpl in Hin.
    + destruct Hin as [[= <- <-]|Hin]; [now left|].
      right; split; [|now right].
      intros ->; apply Hk0; apply (in_map fst) in Hin; exact Hin.
    + destruct Hin as [[= <- <-]|Hin]; [right; split; [assumption | now left]|].
      destruct (IH Hnd k' v' Hin) as [H|[H1 H2]]; [now left|].
      right; split; [assumption | now right].
Qed.

Lemma Counted_nil : Counted [] [].
Proof.
  split; simpl; try constructor; try tauto.
Qed.

Lemma Counted_step (seen : list string) (m : JsMap) (word : string) :
  Counted seen m -> Counted (seen ++ [word])%list (countWord m word).
Proof.
  intros [Hnd Hkeys Hvals Hord].
  assert (Hkeep :
            StronglySorted
              (fun a b => firstIndex a (seen ++ [word])%list
                          < firstIndex b (seen ++ [word])%list)
              (map fst m)).
  { revert Hord; apply StronglySorted_weaken.
    intros a b Ha Hb H.
    apply Hkeys in Ha; apply Hkeys in Hb.
    rewrite !firstIndex_app_In; tauto. }
  unfold countWord; fold (isKeyword word).
  destruct (isKeyword word) eqn:Hkw.
  - destruct (mapGet m word) as [v0|] eqn:Hget; simpl.
    + (* the word is a key already *)
      assert (Hin : In word (map fst m)).
      { apply mapGet_Some_In, (in_map fst) in Hget; exact Hget. }
      split.
      * now rewrite (mapSet_present_keys _ _ _ _ Hget).
      * intros w; rewrite (mapSet_present_keys _ _ _ _ Hget), Hkeys, in_app_iff.
        simpl; split; [tauto|].
        intros [[H|[<-|[]]] Hw]; [tauto|].
        now apply Hkeys.
      * intros w v Hwv.
        apply (mapSet_present_In _ _ _ Hnd) in Hwv.
        rewrite frequency_snoc.
        destruct Hwv as [[-> ->]|[Hne Hwv]].
        -- rewrite String.eqb_refl.
           apply mapGet_Some_In, Hvals in Hget; lia.
        -- apply not_eq_sym, String.eqb_neq in Hne; rewrite Hne.
           apply Hvals in Hwv; lia.
      * now rewrite (mapSet_present_keys _ _ _ _ Hget).
    + (* a new key goes to the end *)
      assert (Hnew : ~ In word (map fst m)) by now apply mapGet_None.
      assert (Hunseen : ~ In word seen).
      { intros H; apply Hnew, Hkeys; tauto. }
      rewrite (mapSet_absent _ _ _ Hget).
      split; rewrite ?map_app; simpl.
      * apply NoDup_app; repeat split; try assumption.
        -- constructor; [intros [] | constructor].
        -- intros w Hw [<-|[]]; contradiction.
      * intros w; rewrite !in_app_iff, Hkeys; simpl; split.
        -- intros [H|[<-|[]]]; tauto.
        -- intros [[H|[<-|[]]] Hw]; tauto.
      * intros w v Hwv; rewrite frequency_snoc.
        apply in_app_iff in Hwv; destruct Hwv as [Hwv|[[= <- <-]|[]]].
        -- assert (Hne : String.eqb word w = false).
           { apply String.eqb_neq; intros <-.
             apply Hnew; apply (in_map fst) in Hwv; exact Hwv. }
           rewrite Hne; apply Hvals in Hwv; lia.
        -- rewrite String.eqb_refl.
           unfold frequency.
           apply (count_occ_not_In string_dec) in Hunseen; lia.
      * apply StronglySorted_snoc; [assumption|].
        apply Forall_forall; intros a Ha.
        apply Hkeys in Ha; destruct Ha as [Ha _].
        rewrite (firstIndex_app_In _ _ _ Ha), (firstIndex_snoc_new _ _ Hunseen).
        now apply firstIndex_lt.
  - (* stop words and short words leave the map as it is *)
    split; try assumption.
    + intros w; rewrite Hkeys, in_app_iff; simpl; split; [tauto|].
      intros [[H|[<-|[]]] Hw]; [tauto | congruence].
    + intros w v Hwv; rewrite frequency_snoc.
      assert (Hne : String.eqb word w = false).
      { apply String.eqb_neq; intros <-.
        apply (in_map fst) in Hwv; apply Hkeys in Hwv; simpl in Hwv.
        destruct Hwv; congruence. }
      rewrite Hne; apply Hvals in Hwv; lia.
Qed.

Lemma Counted_fold (words seen : list string) (m : JsMap) :
  Counted seen m -> Counted (seen ++ words)%list (fold_left countWord words m).
Proof.
  revert seen m; induction words as [|w words IH]; intros seen m H; simpl.
  - now rewrite app_nil_r.
  - replace (seen ++ w :: words)%list with ((seen ++ [w]) ++ words)%list
      by (now rewrite <- app_assoc).
    apply IH, Counted_step, H.
Qed.

(** The length filter before the loop changes nothing: the loop tests
    the length again. *)
Lemma wordCountOf_filter (tokens : list string) (m : JsMap) :
  fold_left countWord (filter longWord tokens) m
  = fold_left countWord tokens m.
Proof.
  revert m; induction tokens as [|t tokens IH]; intros m; simpl; [reflexivity|].
  destruct (longWord t) eqn:Hlong; simpl; [apply IH|].
  replace (countWord m t) with m
    by (unfold countWord; now rewrite Hlong, andb_false_r).
  apply IH.
Qed.

Lemma wordCountOf_Counted (text : string) :
  Counted (tokensOf text) (wordCountOf (wordsOf text)).
Proof.
  unfold wordCountOf, wordsOf; rewrite wordCountOf_filter.
  apply (Counted_fold (tokensOf text) [] []), Counted_nil.
Qed.

(** ** The sort *)

Lemma sortInsert_In {A : Type} (cmp : A -> A -> Z) (x y : A) (l : list A) :
  In y (sortInsert cmp x l) <-> y = x \/ In y l.
Proof.
  induction l as [|z l IH]; simpl.
  - intuition.
  - destruct (cmp z x <? 0)%Z; simpl; rewrite ?IH; intuition.
Qed.

Lemma sort_In {A : Type} (cmp : A -> A -> Z) (y : A) (l : list A) :
  In y (sort cmp l) <-> In y l.
Proof.
  induction l as [|z l IH]; simpl; [tauto|].
  rewrite sortInsert_In, IH; intuition.
Qed.

Lemma sortInsert_sorted (pos : string -> nat) (x : string * nat)
      (l : list (string * nat)) :
  StronglySorted (entryBefore pos) l ->
  Forall (fun y => pos (fst x) < pos (fst y)) l ->
  StronglySorted (entryBefore pos) (sortInsert byCountDesc x l).
Proof.
  induction l as [|y l IH]; simpl; intros Hs Hx.
  - constructor; constructor.
  - apply StronglySorted_inv in Hs; destruct Hs as [Hl Hy].
    apply Forall_cons_iff in Hx; destruct Hx as [Hxy Hxl].
    unfold byCountDesc at 1.
    destruct (Z.ltb_spec (Z.of_nat (snd x) - Z.of_nat (snd y)) 0) as [Hlt|Hge].
    + constructor; [now apply IH|].
      apply Forall_forall; intros z Hz.
      apply sortInsert_In in Hz; destruct Hz as [->|Hz].
      * left; lia.
      * rewrite Forall_forall in Hy; now apply Hy.
    + constructor; [now constructor|].
      constructor; [unfold entryBefore; lia|].
      rewrite Forall_forall in *; intros z Hz.
      specialize (Hy z Hz); specialize (Hxl z Hz).
      unfold entryBefore in *; lia.
Qed.

Lemma sort_sorted (pos : string -> nat) (l : list (string * nat)) :
  StronglySorted (fun a b => pos (fst a) < pos (fst b)) l ->
  StronglySorted (entryBefore pos) (sort byCountDesc l).
Proof.
  induction 1 as [|x l Hl IH Hx]; simpl; [constructor|].
  apply sortInsert_sorted; [assumption|].
  rewrite Forall_forall in *; intros y Hy.
  apply sort_In in Hy; now apply Hx.
Qed.

Lemma StronglySorted_NoDup {A : Type} (R : A -> A -> Prop) (l : list A) :
  (forall a, ~ R a a) -> StronglySorted R l -> NoDup l.
Proof.
  intros Hirr; induction 1 as [|a l Hl IH Ha]; constructor; [|assumption].
  rewrite Forall_forall in Ha; intros Hin; exact (Hirr a (Ha a Hin)).
Qed.

(** The entries the keywords come from. *)
Lemma keyword_entry (text w : string) :
  In w (extractKeywords text) ->
  exists v,
    In (w, v) (wordCountOf (wordsOf text))
    /\ In (w, v)
          (firstn 8 (sort byCountDesc (wordCountOf (wordsOf text)))).
Proof.
  unfold extractKeywords; rewrite in_map_iff.
  intros ([k v] & E & Hin); simpl in E; subst k.
  exists v; split; [|assumption].
  apply In_firstn in Hin; now apply sort_In in Hin.
Qed.

(** C2. For every text, [extractKeywords] returns at most 8 entries;
    every entry is longer than 3 characters, is no stop word and is a
    token of the lower-cased text with its punctuation blanked; and
    the entries stand by descending frequency among these tokens,
    entries of equal frequency in the order in which the count met
    them first (so no entry comes twice). *)
Theorem extractKeywords_ranked (text : string) :
  List.length (extractKeywords text) <= 8
  /\ Forall (fun w => 3 < String.length w) (extractKeywords text)
  /\ Forall (fun w => ~ In w stopWords) (extractKeywords text)
  /\ Forall (fun w => In w (tokensOf text)) (extractKeywords text)
  /\ StronglySorted (rankedBefore (tokensOf text)) (extractKeywords text)
  /\ NoDup (extractKeywords text).
Proof.
  pose proof (wordCountOf_Counted text) as [Hnd Hkeys Hvals Hord].
  assert (Hkw : forall w, In w (extractKeywords text) ->
                          In w (tokensOf text) /\ isKeyword w = true).
  { intros w Hw; apply keyword_entry in Hw; destruct Hw as (v & Hin & _).
    apply Hkeys; apply (in_map fst) in Hin; exact Hin. }
  assert (Hsorted : StronglySorted (rankedBefore (tokensOf text))
                                   (extractKeywords text)).
  { unfold extractKeywords.
    apply (proj1 (StronglySorted_map fst (rankedBefore (tokensOf text)) _)).
    apply StronglySorted_weaken
      with (R := entryBefore (fun w => firstIndex w (tokensOf text))).
    - intros a b Ha Hb Hab.
      apply In_firstn, sort_In in Ha; apply In_firstn, sort_In in Hb.
      destruct a as [ka va], b as [kb vb].
      apply Hvals in Ha; apply Hvals in Hb; subst va vb.
      exact Hab.
    - apply StronglySorted_firstn, sort_sorted.
      now apply (proj2 (StronglySorted_map fst _ _)) in Hord. }
  repeat split.
  - unfold extractKeywords; rewrite length_map; apply firstn_le_length.
  - apply Forall_forall; intros w Hw; apply Hkw in Hw.
    destruct Hw as [_ Hw]; unfold isKeyword, longWord in Hw.
    apply andb_prop in Hw; destruct Hw as [_ Hw]; now apply Nat.ltb_lt.
  - apply Forall_forall; intros w Hw; apply Hkw in Hw.
    destruct Hw as [_ Hw]; unfold isKeyword in Hw.
    apply andb_prop in Hw; destruct Hw as [Hw _].
    apply includes_not_In; now destruct (includes stopWords w).
  - apply Forall_forall; intros w Hw; now apply Hkw.
  - exact Hsorted.
  - revert Hsorted; apply StronglySorted_NoDup.
    intros a [H|[_ H]]; lia.
Qed.

(** The order of the map is the order of first occurrence: the keys of
    the count stand by the place where the text has them first. *)
Lemma wordCount_insertion_order (text : string) :
  StronglySorted
    (fun a b => firstIndex a (tokensOf text) < firstIndex b (tokensOf text))
    (map fst (wordCountOf (wordsOf text))).
Proof.
  apply (counted_order _ _ (wordCountOf_Counted text)).
Qed.

Example extractKeywords_sample :
  extractKeywords
    "Zebra apple; zebra Apple mango. This mango, that zebra: kiwi-lime!"
  = ["zebra"; "apple"; "mango"; "kiwi"; "lime"].
Proof. vm_compute; reflexivity. Qed.

End Keywords.

(* ================================================================== *)
(** * The size of a file in words *)
(* ================================================================== *)

Section FileSize.
Local Open Scope N_scope.

Lemma log2_k : N.log2 k = 10.
Proof. reflexivity. Qed.

Lemma k_pow (i : N) : k ^ i = 2 ^ (10 * i).
Proof.
  change k with (2 ^ 10); now rewrite N.pow_mul_r.
Qed.

(** The index is the integer logarithm to the base 1024. *)
Lemma unitIndex_scale (bytes : N) :
  0 < bytes ->
  k ^ unitIndex bytes <= bytes < k ^ (unitIndex bytes + 1).
Proof.
  intros Hpos; unfold unitIndex; rewrite log2_k, !k_pow.
  destruct (N.log2_spec bytes Hpos) as [Hlo Hhi].
  pose proof (N.Div0.mul_div_le (N.log2 bytes) 10) as Hdiv.
  pose proof (N.mul_succ_div_gt (N.log2 bytes) 10 ltac:(lia)) as Hdiv'.
  split.
  - apply N.le_trans with (2 ^ N.log2 bytes); [|assumption].
    apply N.pow_le_mono_r; lia.
  - apply N.lt_le_trans with (2 ^ N.succ (N.log2 bytes)); [assumption|].
    apply N.pow_le_mono_r; lia.
Qed.

(** [hundredths] is the quotient in hundredths, rounded to the nearest,
    a tie going up. *)
Lemma hundredths_nearest (bytes i : N) :
  2 * hundredths bytes i * k ^ i <= 2 * 100 * bytes + k ^ i
  /\ 2 * 100 * bytes + k ^ i < 2 * (hundredths bytes i + 1) * k ^ i.
Proof.
  unfold hundredths.
  assert (Hk : 0 < 2 * k ^ i).
  { rewrite k_pow; pose proof (N.pow_nonzero 2 (10 * i)); lia. }
  pose proof (N.Div0.mul_div_le (2 * 100 * bytes + k ^ i) (2 * k ^ i)) as Hlo.
  pose proof (N.mul_succ_div_gt (2 * 100 * bytes + k ^ i) (2 * k ^ i)
                ltac:(lia)) as Hhi.
  nia.
Qed.

Lemma formatFileSize_zero : formatFileSize 0 = "0 Bytes"%string.
Proof. reflexivity. Qed.

(** Below 1024^4 the index stays inside the table of names. *)
Lemma formatFileSize_in_table (bytes : N) :
  0 < bytes -> bytes < k ^ 4 ->
  unitIndex bytes < 4
  /\ In (sizeName (unitIndex bytes)) sizes
  /\ formatFileSize bytes
     = (showHundredths (hundredths bytes (unitIndex bytes)) ++ " "
          ++ sizeName (unitIndex bytes))%string.
Proof.
  intros Hpos Hlt.
  assert (Hidx : unitIndex bytes < 4).
  { unfold unitIndex; rewrite log2_k.
    assert (N.log2 bytes < 40)
      by (apply N.log2_lt_pow2; [assumption | exact Hlt]).
    apply N.Div0.div_lt_upper_bound; lia. }
  repeat split; [assumption| |].
  - unfold sizeName.
    assert (Hcases : unitIndex bytes = 0 \/ unitIndex bytes = 1
                     \/ unitIndex bytes = 2 \/ unitIndex bytes = 3) by lia.
    destruct Hcases as [E | [E | [E | E]]]; rewrite E; simpl; auto.
  - unfold formatFileSize.
    destruct (N.eqb_spec bytes 0); [lia | reflexivity].
Qed.

Lemma endsWith_undefined (text unit : string) :
  In unit sizes -> endsWith (text ++ " undefined") (" " ++ unit) = false.
Proof.
  unfold endsWith; rewrite (srev_append text " undefined").
  intros [<-|[<-|[<-|[<-|[]]]]]; reflexivity.
Qed.

(** C10. From 1024^4 bytes on, the unit index of [formatFileSize] is 4
    or more, there is no name at that index of the four-entry table,
    and the text ends in " undefined": its unit is none of Bytes, KB,
    MB and GB.  [bytes] is a byte count a double holds exactly, and
    [floorLog bytes] is the index as the engine computes it: the floor
    of the quotient of the two double logarithms, which is the integer
    logarithm [unitIndex bytes] or, where that quotient rounds up just
    below a power of 1024, the integer after it.  At the integer
    logarithm itself the text is that of [formatFileSize]. *)
Theorem formatFileSize_beyond_table (floorLog : N -> N) (bytes : N) :
  k ^ 4 <= bytes -> bytes < 2 ^ 53 ->
  unitIndex bytes <= floorLog bytes ->
  4 <= unitIndex bytes
  /\ 4 <= floorLog bytes
  /\ nth_error sizes (N.to_nat (floorLog bytes)) = None
  /\ formatFileSizeWith floorLog bytes
     = (showHundredths (hundredths bytes (floorLog bytes))
          ++ " undefined")%string
  /\ ~ In (sizeName (floorLog bytes)) sizes
  /\ (forall unit, In unit sizes ->
                   endsWith (formatFileSizeWith floorLog bytes) (" " ++ unit)
                   = false)
  /\ (floorLog bytes = unitIndex bytes ->
      formatFileSizeWith floorLog bytes = formatFileSize bytes).
Proof.
  intros Hbig Hsafe Hfloor.
  assert (Hidx : 4 <= unitIndex bytes).
  { unfold unitIndex; rewrite log2_k.
    change 4 with (40 / 10).
    apply N.Div0.div_le_mono.
    change 40 with (N.log2 (k ^ 4)); now apply N.log2_le_mono. }
  assert (Hfour : 4 <= floorLog bytes) by lia.
  assert (Hnone : nth_error sizes (N.to_nat (floorLog bytes)) = None).
  { apply nth_error_None; simpl; lia. }
  assert (Hname : sizeName (floorLog bytes) = "undefined"%string).
  { unfold sizeName; now rewrite Hnone. }
  assert (Hpos : (bytes =? 0) = false).
  { apply N.eqb_neq; intros E; rewrite E in Hbig.
    vm_compute in Hbig; now destruct Hbig. }
  assert (Htext : formatFileSizeWith floorLog bytes
                  = (showHundredths (hundredths bytes (floorLog bytes))
                       ++ " undefined")%string).
  { unfold formatFileSizeWith; now rewrite Hpos, Hname. }
  split; [exact Hidx|].
  split; [exact Hfour|].
  split; [exact Hnone|].
  split; [exact Htext|].
  split; [|split].
  - rewrite Hname; simpl; intuition discriminate.
  - intros unit Hunit; rewrite Htext; now apply endsWith_undefined.
  - intros Hsame; unfold formatFileSizeWith, formatFileSize.
    now rewrite Hpos, Hsame.
Qed.

(** The statement at one tebibyte, where the index is the integer
    logarithm, and at 1024^5 - 1, where the quotient of the double
    logarithms rounds up to 5. *)
Lemma formatFileSize_beyond_table_witness :
  (k ^ 4 <= 1099511627776
   /\ unitIndex 1099511627776 = 4
   /\ formatFileSize 1099511627776 = "1 undefined"%string)
  /\ (k ^ 4 <= 1125899906842623
      /\ unitIndex 1125899906842623 = 4
      /\ roundedLog 1125899906842623 = 5
      /\ formatFileSizeWith roundedLog 1125899906842623
         = "1 undefined"%string).
Proof.
  assert (Hone : k ^ 4 <= 1099511627776) by (vm_compute; discriminate).
  assert (Hfive : k ^ 4 <= 1125899906842623) by (vm_compute; discriminate).
  split.
  - destruct (formatFileSize_beyond_table unitIndex 1099511627776 Hone
                eq_refl (N.le_refl _))
      as (_ & _ & _ & Htext & _ & _ & Hsame).
    split; [exact Hone | split; [reflexivity|]].
    rewrite <- (Hsame eq_refl), Htext; reflexivity.
  - destruct (formatFileSize_beyond_table roundedLog 1125899906842623 Hfive
                eq_refl ltac:(vm_compute; discriminate))
      as (_ & _ & _ & Htext & _).
    split; [exact Hfive | split; [reflexivity | split; [reflexivity|]]].
    rewrite Htext; reflexivity.
Defined.

(** C8, at two tebibytes: the value is scaled by 1024^4 and the unit is
    read past the end of the table. *)
Theorem formatFileSize_two_tebibytes :
  formatFileSize 2199023255552 = "2 undefined"%string
  /\ unitIndex 2199023255552 = 4
  /\ ~ In (sizeName (unitIndex 2199023255552)) sizes.
Proof.
  repeat split; try reflexivity.
  vm_compute; intuition discriminate.
Qed.

Example formatFileSize_samples :
  map formatFileSize [1; 1023; 1024; 1536; 1234567; 1073741824; 1099511627775]
  = ["1 Bytes"; "1023 Bytes"; "1 KB"; "1.5 KB"; "1.18 MB"; "1 GB";
     "1024 GB"]%string.
Proof. vm_compute; reflexivity. Qed.

End FileSize.

(* ================================================================== *)
(** * The dispatch of a file *)
(* ================================================================== *)

Section Dispatch.
Variable P : Platform.

(** Follows the chain of [convertFileToText] down to the branch that
    [H : strategyOf file = _] names. *)
Ltac follow_chain H :=
  unfold strategyOf, dispatch in H; unfold convertFileToText; cbv zeta;
  repeat match type of H with
         | (if ?c then _ else _) = _ =>
             destruct c; [first [discriminate H | reflexivity]|]
         end;
  first [discriminate H | reflexivity].

Lemma convertFileToText_text (file : File) :
  strategyOf file = TextRule -> convertFileToText P file = readTextFile P file.
Proof. intros H; follow_chain H. Qed.

Lemma convertFileToText_json (file : File) :
  strategyOf file = JsonRule ->
  convertFileToText P file
  = (text <- readTextFile P file ;;
     tryCatch (json <- JSON_parse P text ;; Ok (JSON_stringify P json 2))
              (fun _ => Ok text)).
Proof. intros H; follow_chain H. Qed.

Lemma convertFileToText_word (file : File) :
  strategyOf file = WordRule ->
  convertFileToText P file = convertDocxToText P file.
Proof. intros H; follow_chain H. Qed.

Lemma convertFileToText_excel (file : File) :
  strategyOf file = ExcelRule ->
  convertFileToText P file = convertExcelToText P file.
Proof. intros H; follow_chain H. Qed.

Lemma convertFileToText_pdf (file : File) :
  strategyOf file = PdfRule ->
  convertFileToText P file = convertPdfToText P file.
Proof. intros H; follow_chain H. Qed.

Lemma convertFileToText_image (file : File) :
  strategyOf file = ImageRule ->
  convertFileToText P file = convertImageToText P file.
Proof. intros H; follow_chain H. Qed.

Lemma convertFileToText_archive (file : File) :
  strategyOf file = ArchiveRule ->
  convertFileToText P file = convertArchiveToText P file.
Proof. intros H; follow_chain H. Qed.

Lemma convertFileToText_fallback (file : File) :
  strategyOf file = FallbackRule ->
  convertFileToText P file
  = tryCatch
      (uint8Array <- File_arrayBuffer P file ;;
       if isBinary uint8Array
       then Ok (extractBinaryFileInfo P file uint8Array)
       else readTextFile P file)
      (fun _ => Throw (unsupported (toLowerCase (type file)))).
Proof. intros H; follow_chain H. Qed.

(** The five branches that read the file as text. *)
Lemma convertFileToText_raw (file : File) :
  In (strategyOf file) [TextRule; MarkupRule; ScriptRule; SvgRule; LogRule] ->
  convertFileToText P file = readTextFile P file.
Proof.
  intros [H|[H|[H|[H|[H|[]]]]]]; symmetry in H; follow_chain H.
Qed.

End Dispatch.

(* ================================================================== *)
(** * Files read as text *)
(* ================================================================== *)

Section TextLike.
Variable P : Platform.

(** With the ending [H] of the name known, the other endings the chain
    tests are excluded. *)
Ltac other_endings H :=
  match type of H with
  | endsWith ?n ?a = true =>
      repeat match goal with
             | |- context [endsWith n ?o] =>
                 rewrite (endsWith_exclusive n a o eq_refl H)
             end
  end.

Lemma late_ending_strategy (fileName fileType ext : string) :
  In ext lateRuleEndings -> endsWith fileName ext = true ->
  earlierTypeRule fileType = false ->
  In (dispatch fileName fileType)
     [TextRule; MarkupRule; ScriptRule; SvgRule; LogRule].
Proof.
  intros Hext Hends Htype.
  unfold earlierTypeRule in Htype.
  repeat (apply orb_false_elim in Htype;
          let H := fresh "Ht" in destruct Htype as [Htype H]).
  unfold dispatch.
  destruct (isTextFile fileName fileType); [simpl; tauto|].
  unfold isJsonFile, isWordFile, isExcelFile, isPdfFile, isImageFile,
    isArchiveFile, isSvgFile, isLogFile.
  rewrite Htype, Ht, Ht0, Ht1, Ht2, Ht3.
  destruct (isMarkupFile fileName fileType);
    destruct (isScriptFile fileName fileType);
    destruct Hext as [<-|[<-|[<-|[<-|[]]]]];
    rewrite ?Hends; other_endings Hends; simpl;
    rewrite ?orb_true_r; simpl;
    try destruct (String.eqb fileType "image/svg+xml"); simpl; tauto.
Qed.

(** What the chain does read as text.  A file whose lower-cased
    declared type starts with [text/], or whose lower-cased name ends
    in .txt, .md or .csv, is taken by the first test and read as text
    unchanged.  A file whose name ends in .svg, .log, .cfg or .ini is
    read as text unchanged when its declared type is none of those an
    earlier rule takes for another extraction (JSON, document,
    spreadsheet, PDF, [image/]). *)
Lemma convertFileToText_text_like (file : File) :
  (startsWith (toLowerCase (type file)) "text/" = true
   \/ (exists ext, In ext firstRuleEndings
                   /\ endsWith (toLowerCase (name file)) ext = true) ->
   strategyOf file = TextRule
   /\ convertFileToText P file = readTextFile P file)
  /\ ((exists ext, In ext lateRuleEndings
                   /\ endsWith (toLowerCase (name file)) ext = true) ->
      earlierTypeRule (toLowerCase (type file)) = false ->
      convertFileToText P file = readTextFile P file).
Proof.
  split.
  - intros H.
    assert (Hrule : strategyOf file = TextRule).
    { unfold strategyOf, dispatch, isTextFile.
      destruct H as [->|(ext & [<-|[<-|[<-|[]]]] & ->)];
        rewrite ?orb_true_r; reflexivity. }
    split; [assumption | now apply convertFileToText_text].
  - intros (ext & Hext & Hends) Htype.
    apply convertFileToText_raw.
    now apply (late_ending_strategy _ _ ext).
Qed.

End TextLike.

(** At a text file and at a settings file. *)
Lemma convertFileToText_text_like_witness :
  convertFileToText samplePlatform notesTxt
  = readTextFile samplePlatform notesTxt
  /\ convertFileToText samplePlatform appIni
     = readTextFile samplePlatform appIni.
Proof.
  split.
  - apply (proj1 (convertFileToText_text_like samplePlatform notesTxt)).
    right; exists ".txt"; split; [now left | reflexivity].
  - apply (proj2 (convertFileToText_text_like samplePlatform appIni)).
    + exists ".ini"; split; [simpl; tauto | reflexivity].
    + reflexivity.
Defined.

(** A name ending in .log does not make the text rule the first match:
    the tests of the declared type stand before it.  With the declared
    type [application/pdf] the PDF rule takes the file and its pages
    are extracted, which is not the text of the file. *)
Lemma log_name_with_pdf_type_not_raw :
  endsWith (toLowerCase (name serverLog)) ".log" = true
  /\ strategyOf serverLog = PdfRule
  /\ readTextFile samplePlatform serverLog = Ok "[1]"
  /\ convertFileToText samplePlatform serverLog
     = Ok ("Page 1:" ++ nl ++ "Hello world")
  /\ convertFileToText samplePlatform serverLog
     <> readTextFile samplePlatform serverLog.
Proof.
  repeat split; try reflexivity.
  vm_compute; discriminate.
Qed.

(** The declared type [image/svg+xml] starts with [image/]: the image
    rule stands before the SVG rule and takes the file for OCR. *)
Lemma svg_type_taken_by_image_rule (P : Platform) (file : File) :
  toLowerCase (type file) = "image/svg+xml" ->
  In (strategyOf file)
     [TextRule; JsonRule; MarkupRule; ScriptRule; WordRule; ExcelRule; PdfRule;
      ImageRule]
  /\ strategyOf file <> SvgRule.
Proof.
  intros Htype; unfold strategyOf, dispatch; rewrite Htype.
  unfold isImageFile; simpl startsWith; simpl orb.
  repeat match goal with
         | |- context [if ?c then _ else _] => destruct c
         end; simpl; split; try tauto; discriminate.
Qed.

Example svg_file_goes_to_ocr :
  strategyOf logoSvg = ImageRule
  /\ convertFileToText samplePlatform logoSvg
     = convertImageToText samplePlatform logoSvg.
Proof. split; reflexivity. Qed.

(** C1, at an SVG file as a browser hands it over: the name ends in
    .svg and the declared type is [image/svg+xml].  No rule before the
    image rule takes the file, and the image rule does, because the
    type starts with [image/]: the file goes to the OCR, on every
    platform, and the test of the SVG rule for this very type is never
    reached.  The result is the metadata of the image, under the
    recognized text where the OCR recognizes some; the text of the
    file is not read. *)
Theorem svg_type_sent_to_ocr (P : Platform) (file : File) :
  toLowerCase (type file) = "image/svg+xml" ->
  endsWith (toLowerCase (name file)) ".svg" = true ->
  isSvgFile (toLowerCase (name file)) (toLowerCase (type file)) = true
  /\ strategyOf file = ImageRule
  /\ convertFileToText P file = convertImageToText P file
  /\ (forall text,
         Tesseract_recognize P file = Ok text -> trim text <> "" ->
         convertFileToText P file
         = Ok ("OCR Text Content:" ++ nl ++ text ++ nl ++ nl
                 ++ extractImageMetadata P file))
  /\ (forall text,
         Tesseract_recognize P file = Ok text -> trim text = "" ->
         convertFileToText P file = Ok (extractImageMetadata P file))
  /\ (forall message,
         Tesseract_recognize P file = Throw message ->
         convertFileToText P file = Ok (extractImageMetadata P file)).
Proof.
  intros Htype Hname.
  assert (Hrule : strategyOf file = ImageRule).
  { unfold strategyOf, dispatch, isTextFile, isJsonFile, isMarkupFile,
      isScriptFile, isWordFile, isExcelFile, isPdfFile, isImageFile.
    rewrite Htype.
    repeat match goal with
           | |- context [endsWith (toLowerCase (name file)) ?o] =>
               rewrite (endsWith_exclusive (toLowerCase (name file)) ".svg" o
                          eq_refl Hname)
           end.
    reflexivity. }
  assert (Himage : convertFileToText P file = convertImageToText P file)
    by now apply convertFileToText_image.
  split; [unfold isSvgFile; now rewrite Htype|].
  split; [exact Hrule|].
  split; [exact Himage|].
  rewrite Himage; unfold convertImageToText.
  split; [|split].
  - intros text Hocr Hsome; rewrite Hocr; simpl.
    now destruct (String.eqb_spec (trim text) "").
  - intros text Hocr Hblank; rewrite Hocr; simpl.
    now rewrite Hblank.
  - intros message Hocr; now rewrite Hocr.
Qed.

(** The statement at [logo.svg]: with an OCR that reads the word HELLO
    in it, the result is that word over the metadata of the image, and
    not the text of the file. *)
Lemma svg_type_sent_to_ocr_witness :
  strategyOf logoSvg = ImageRule
  /\ convertFileToText readingPlatform logoSvg
     = Ok ("OCR Text Content:" ++ nl ++ "HELLO" ++ nl ++ nl
             ++ extractImageMetadata readingPlatform logoSvg)
  /\ readTextFile readingPlatform logoSvg = Ok "[1]"
  /\ convertFileToText readingPlatform logoSvg
     <> readTextFile readingPlatform logoSvg.
Proof.
  destruct (svg_type_sent_to_ocr readingPlatform logoSvg eq_refl eq_refl)
    as (_ & Hrule & _ & Hread & _).
  assert (Htext : convertFileToText readingPlatform logoSvg
                  = Ok ("OCR Text Content:" ++ nl ++ "HELLO" ++ nl ++ nl
                          ++ extractImageMetadata readingPlatform logoSvg)).
  { apply Hread; [reflexivity | vm_compute; discriminate]. }
  split; [exact Hrule|].
  split; [exact Htext|].
  split; [reflexivity|].
  rewrite Htext; vm_compute; discriminate.
Defined.

(* ================================================================== *)
(** * Collaborators that throw *)
(* ================================================================== *)

Section Collaborators.
Variable P : Platform.

(** C4, as the code has it. When the OCR collaborator throws on a file
    the image rule takes, [convertFileToText] does not fail: the
    [catch] returns the metadata of the image.  A throw of the
    document, spreadsheet, PDF or archive collaborator does make it
    fail, with the message of that strategy. *)
Theorem ocr_failure_returns_metadata (file : File) :
  (forall message,
      strategyOf file = ImageRule ->
      Tesseract_recognize P file = Throw message ->
      convertFileToText P file = Ok (extractImageMetadata P file))
  /\ (forall data message,
         strategyOf file = WordRule ->
         File_arrayBuffer P file = Ok data ->
         mammoth_extractRawText P data = Throw message ->
         convertFileToText P file = Throw "Failed to convert DOCX file")
  /\ (forall data message,
         strategyOf file = ExcelRule ->
         File_arrayBuffer P file = Ok data ->
         XLSX_read P data = Throw message ->
         convertFileToText P file = Throw "Failed to convert Excel file")
  /\ (forall data message,
         strategyOf file = PdfRule ->
         File_arrayBuffer P file = Ok data ->
         pdfjs_getDocument P data = Throw message ->
         convertFileToText P file = Throw "Failed to convert PDF file")
  /\ (forall message,
         strategyOf file = ArchiveRule ->
         JSZip_loadAsync P file = Throw message ->
         convertFileToText P file = Throw "Failed to read archive file").
Proof.
  repeat split.
  - intros message Hrule Hocr.
    rewrite (convertFileToText_image P file Hrule).
    unfold convertImageToText; now rewrite Hocr.
  - intros data message Hrule Hbuf Hthrow.
    rewrite (convertFileToText_word P file Hrule).
    unfold convertDocxToText; rewrite Hbuf; simpl; now rewrite Hthrow.
  - intros data message Hrule Hbuf Hthrow.
    rewrite (convertFileToText_excel P file Hrule).
    unfold convertExcelToText; rewrite Hbuf; simpl; now rewrite Hthrow.
  - intros data message Hrule Hbuf Hthrow.
    rewrite (convertFileToText_pdf P file Hrule).
    unfold convertPdfToText; rewrite Hbuf; simpl; now rewrite Hthrow.
  - intros message Hrule Hthrow.
    rewrite (convertFileToText_archive P file Hrule).
    unfold convertArchiveToText; now rewrite Hthrow.
Qed.

(** The image strategy never fails, whatever the collaborator does. *)
Lemma convertImageToText_total (file : File) :
  exists text, convertImageToText P file = Ok text.
Proof.
  unfold convertImageToText.
  destruct (Tesseract_recognize P file) as [text|message]; simpl.
  - destruct (String.eqb (trim text) ""); eexists; reflexivity.
  - eexists; reflexivity.
Qed.

End Collaborators.

(** The amended statement on the sample platform, whose OCR, document,
    spreadsheet and archive collaborators throw on every file and whose
    PDF collaborator throws on the damaged file. *)
Lemma ocr_failure_returns_metadata_witness :
  convertFileToText samplePlatform photoPng
  = Ok (extractImageMetadata samplePlatform photoPng)
  /\ convertFileToText samplePlatform letterDocx
     = Throw "Failed to convert DOCX file"
  /\ convertFileToText samplePlatform tableXlsx
     = Throw "Failed to convert Excel file"
  /\ convertFileToText samplePlatform damagedPdf
     = Throw "Failed to convert PDF file"
  /\ convertFileToText samplePlatform bundleZip
     = Throw "Failed to read archive file".
Proof.
  refine (conj _ (conj _ (conj _ (conj _ _)))).
  - destruct (ocr_failure_returns_metadata samplePlatform photoPng)
      as (H & _).
    apply (H "worker failed"); reflexivity.
  - destruct (ocr_failure_returns_metadata samplePlatform letterDocx)
      as (_ & H & _).
    apply (H [x5b; x31; x5d] "not a DOCX"); reflexivity.
  - destruct (ocr_failure_returns_metadata samplePlatform tableXlsx)
      as (_ & _ & H & _).
    apply (H [x5b; x31; x5d] "not a workbook"); reflexivity.
  - destruct (ocr_failure_returns_metadata samplePlatform damagedPdf)
      as (_ & _ & _ & H & _).
    apply (H [x41; x42; x00; x43] "Invalid PDF structure"); reflexivity.
  - destruct (ocr_failure_returns_metadata samplePlatform bundleZip)
      as (_ & _ & _ & _ & H).
    apply (H "not a zip"); reflexivity.
Defined.

(** C4 as stated fails: the OCR collaborator throws on the photo, and
    the conversion succeeds all the same. *)
Lemma ocr_failure_is_not_an_error :
  strategyOf photoPng = ImageRule
  /\ Tesseract_recognize samplePlatform photoPng = Throw "worker failed"
  /\ convertFileToText samplePlatform photoPng
     = Ok (extractImageMetadata samplePlatform photoPng)
  /\ (forall message,
         convertFileToText samplePlatform photoPng <> Throw message).
Proof.
  repeat split; try reflexivity.
  intros message; vm_compute; discriminate.
Qed.

(* ================================================================== *)
(** * JSON files *)
(* ================================================================== *)

Section Json.
Variable P : Platform.

(** C5. For a file the JSON rule takes and whose text is read: when
    parsing throws, [convertFileToText] returns the text as it is;
    when parsing gives a value, it returns the value serialized with
    an indentation of 2; it does not fail either way. *)
Theorem convertFileToText_json_fallback (file : File) (text : string) :
  strategyOf file = JsonRule ->
  readTextFile P file = Ok text ->
  (forall message,
      JSON_parse P text = Throw message ->
      convertFileToText P file = Ok text)
  /\ (forall json,
         JSON_parse P text = Ok json ->
         convertFileToText P file = Ok (JSON_stringify P json 2))
  /\ (exists output, convertFileToText P file = Ok output).
Proof.
  intros Hrule Hread.
  rewrite (convertFileToText_json P file Hrule), Hread; simpl.
  repeat split.
  - intros message Hparse; now rewrite Hparse.
  - intros json Hparse; now rewrite Hparse.
  - destruct (JSON_parse P text); eexists; reflexivity.
Qed.

End Json.

(** The statement at a file that does not parse and at one that does. *)
Lemma convertFileToText_json_fallback_witness :
  strategyOf brokenJson = JsonRule
  /\ convertFileToText samplePlatform brokenJson = Ok "{oops"
  /\ convertFileToText samplePlatform goodJson
     = Ok ("[" ++ nl ++ "  1" ++ nl ++ "]").
Proof.
  split; [reflexivity | split].
  - destruct (convertFileToText_json_fallback samplePlatform brokenJson "{oops")
      as (H & _); [reflexivity | reflexivity |].
    apply (H "Unexpected token"); reflexivity.
  - destruct (convertFileToText_json_fallback samplePlatform goodJson "[1]")
      as (_ & H & _); [reflexivity | reflexivity |].
    apply (H "[1]"); reflexivity.
Defined.

(* ================================================================== *)
(** * The fallback *)
(* ================================================================== *)

Section Fallback.
Variable P : Platform.

Lemma zeroScan_true (data : list byte) (remaining i : nat) :
  zeroScan data i remaining = true
  <-> exists j, i <= j < i + remaining /\ nth_error data j = Some x00.
Proof.
  revert i; induction remaining as [|n IH]; intros i; simpl.
  - split; [discriminate | intros (j & Hj & _); lia].
  - assert (Hrest :
              zeroScan data (S i) n = true
              <-> exists j, S i <= j < i + S n /\ nth_error data j = Some x00).
    { rewrite IH; split; intros (j & Hj & E); exists j; split; auto; lia. }
    destruct (nth_error data i) as [b|] eqn:Hi.
    + destruct (Byte.eqb b x00) eqn:Hb.
      * apply Byte.byte_dec_bl in Hb; subst b.
        split; [intros _; exists i; split; [lia | assumption] | reflexivity].
      * apply Byte.eqb_false in Hb.
        rewrite Hrest; split; intros (j & Hj & E).
        -- exists j; split; [lia | assumption].
        -- exists j; split; [|assumption].
           assert (j <> i) by (intros ->; congruence); lia.
    + rewrite Hrest; split; intros (j & Hj & E).
      * exists j; split; [lia | assumption].
      * exists j; split; [|assumption].
        assert (j <> i) by (intros ->; congruence); lia.
Qed.

(** The scan finds a zero exactly when one of the first
    [min 1000 length] bytes is zero. *)
Lemma isBinary_spec (data : list byte) :
  isBinary data = true
  <-> exists j, j < Nat.min 1000 (List.length data)
                /\ nth_error data j = Some x00.
Proof.
  unfold isBinary; rewrite zeroScan_true; split;
    intros (j & Hj & E); exists j; split; auto; lia.
Qed.

(** C6. For a file that reaches the fallback and whose bytes are read:
    when one of the first [min 1000 length] bytes is zero, the file is
    classified as binary and the result is the binary report; when
    none of them is zero, the file is read as text (a failure of that
    read is reported as an unsupported type). *)
Theorem fallback_zero_byte_rule (file : File) (data : list byte) :
  strategyOf file = FallbackRule ->
  File_arrayBuffer P file = Ok data ->
  ((exists j, j < Nat.min 1000 (List.length data)
              /\ nth_error data j = Some x00) ->
   isBinary data = true
   /\ convertFileToText P file = Ok (extractBinaryFileInfo P file data))
  /\ ((forall j, j < Nat.min 1000 (List.length data) ->
                 nth_error data j <> Some x00) ->
      isBinary data = false
      /\ convertFileToText P file
         = tryCatch (readTextFile P file)
                    (fun _ => Throw (unsupported (toLowerCase (type file))))
      /\ (forall text, readTextFile P file = Ok text ->
                       convertFileToText P file = Ok text)).
Proof.
  intros Hrule Hbuf.
  rewrite (convertFileToText_fallback P file Hrule), Hbuf; simpl.
  split.
  - intros Hzero; apply isBinary_spec in Hzero.
    now rewrite Hzero.
  - intros Hnone.
    assert (Hbin : isBinary data = false).
    { destruct (isBinary data) eqn:E; [|reflexivity].
      apply isBinary_spec in E; destruct E as (j & Hj & E).
      now destruct (Hnone j Hj). }
    rewrite Hbin; repeat split.
    intros text Hread; now rewrite Hread.
Qed.

End Fallback.

(** The statement at a file with a zero byte and at one without. *)
Lemma fallback_zero_byte_rule_witness :
  (strategyOf blobBin = FallbackRule
   /\ convertFileToText samplePlatform blobBin
      = Ok (extractBinaryFileInfo samplePlatform blobBin [x41; x42; x00; x43]))
  /\ (strategyOf plainDat = FallbackRule
      /\ convertFileToText samplePlatform plainDat = Ok "[1]").
Proof.
  split; (split; [reflexivity|]).
  - destruct (fallback_zero_byte_rule samplePlatform blobBin
                                      [x41; x42; x00; x43])
      as (H & _); [reflexivity | reflexivity |].
    apply H; exists 2; split; [simpl; lia | reflexivity].
  - destruct (fallback_zero_byte_rule samplePlatform plainDat [x5b; x31; x5d])
      as (_ & H); [reflexivity | reflexivity |].
    destruct H as (_ & _ & H).
    + intros j Hj; simpl in Hj.
      destruct j as [|[|[|j]]]; simpl; try discriminate; lia.
    + apply H; reflexivity.
Defined.

(* ================================================================== *)
(** * Lower case and tokens *)
(* ================================================================== *)

Section Tokens.

Lemma lowerChar_idempotent (c : ascii) : lowerChar (lowerChar c) = lowerChar c.
Proof.
  destruct c as [[] [] [] [] [] [] [] []]; reflexivity.
Qed.

Lemma lowerChar_not_upper (c : ascii) : between 65 90 (lowerChar c) = false.
Proof.
  destruct c as [[] [] [] [] [] [] [] []]; reflexivity.
Qed.

Lemma toLowerCase_idempotent (s : string) :
  toLowerCase (toLowerCase s) = toLowerCase s.
Proof.
  unfold toLowerCase; induction s as [|c s IH]; simpl; [reflexivity|].
  now rewrite lowerChar_idempotent, IH.
Qed.

Lemma append_empty (s : string) : s ++ "" = s.
Proof.
  induction s as [|c s IH]; simpl; [reflexivity | now rewrite IH].
Qed.

Lemma sforall_append (f : ascii -> bool) (s t : string) :
  sforall f (s ++ t) = sforall f s && sforall f t.
Proof.
  induction s as [|c s IH]; simpl; [reflexivity|].
  now rewrite IH, andb_assoc.
Qed.

Lemma sforall_weaken (f g : ascii -> bool) (s : string) :
  (forall c, f c = true -> g c = true) ->
  sforall f s = true -> sforall g s = true.
Proof.
  intros Hfg; induction s as [|c s IH]; simpl; [reflexivity|].
  intros H; apply andb_prop in H; destruct H as [Hc Hs].
  now rewrite (Hfg c Hc), IH.
Qed.

Lemma sforall_smap (f : ascii -> bool) (g : ascii -> ascii) (s : string) :
  (forall c, f (g c) = true) -> sforall f (smap g s) = true.
Proof.
  intros H; induction s as [|c s IH]; simpl; [reflexivity|].
  now rewrite H, IH.
Qed.

(** The pieces of a split hold no separator, and keep what holds of
    every code unit of the text. *)
Lemma splitLoop_pieces (sep keep : ascii -> bool) (s piece : string)
      (inRun : bool) :
  sforall keep s = true ->
  sforall (fun c => keep c && negb (sep c)) piece = true ->
  Forall (fun p => sforall (fun c => keep c && negb (sep c)) p = true)
         (splitLoop sep s piece inRun).
Proof.
  revert piece inRun; induction s as [|c s IH]; intros piece inRun Hs Hp; simpl.
  - now constructor.
  - simpl in Hs; apply andb_prop in Hs; destruct Hs as [Hc Hs].
    destruct (sep c) eqn:Hsep.
    + destruct inRun; [|constructor; [assumption|]]; now apply IH.
    + apply IH; [assumption|].
      rewrite sforall_append, Hp; simpl; now rewrite Hc, Hsep.
Qed.

Lemma split_pieces (sep keep : ascii -> bool) (s p : string) :
  sforall keep s = true -> In p (split sep s) ->
  sforall (fun c => keep c && negb (sep c)) p = true.
Proof.
  intros Hs Hp.
  pose proof (splitLoop_pieces sep keep s "" false Hs eq_refl) as H.
  rewrite Forall_forall in H; now apply H.
Qed.

(** A text without separator is its only piece. *)
Lemma splitLoop_no_separator (sep : ascii -> bool) (s piece : string) :
  sforall (fun c => negb (sep c)) s = true ->
  splitLoop sep s piece false = [piece ++ s].
Proof.
  revert piece; induction s as [|c s IH]; intros piece H; simpl.
  - now rewrite append_empty.
  - simpl in H; apply andb_prop in H; destruct H as [Hc Hs].
    apply negb_true_iff in Hc; rewrite Hc, IH by assumption.
    now rewrite append_assoc.
Qed.

Lemma nonWordSplit_word_chars (text w : string) :
  In w (nonWordSplit text) -> sforall isWordChar w = true.
Proof.
  unfold nonWordSplit; intros H.
  apply (split_pieces isNonWordChar (fun _ => true)) in H.
  - revert H; apply sforall_weaken; intros c Hc; simpl in Hc.
    unfold isNonWordChar in Hc; now rewrite negb_involutive in Hc.
  - clear H; induction (toLowerCase text); simpl; auto.
Qed.

Lemma tokensOf_keyword_chars (text w : string) :
  In w (tokensOf text) -> sforall isKeywordChar w = true.
Proof.
  unfold tokensOf; intros H.
  apply (split_pieces isSpaceChar
           (fun c => (isWordChar c || isSpaceChar c)
                     && negb (between 65 90 c))) in H.
  - revert H; apply sforall_weaken; intros c Hc.
    apply andb_prop in Hc; destruct Hc as [Hc Hspace].
    apply andb_prop in Hc; destruct Hc as [Hc Hupper].
    apply negb_true_iff in Hspace, Hupper.
    rewrite Hspace, orb_false_r in Hc.
    unfold isWordChar in Hc; rewrite Hupper, orb_false_r in Hc.
    exact Hc.
  - clear H; unfold blankPunctuation, toLowerCase.
    induction text as [|c text IH]; simpl; [reflexivity|].
    rewrite IH, andb_true_r.
    destruct (isWordChar (lowerChar c) || isSpaceChar (lowerChar c)) eqn:E.
    + now rewrite E, lowerChar_not_upper.
    + reflexivity.
Qed.

(** X1. Every keyword that [extractKeywords] returns is made of
    lower-case letters a-z, digits and underscores only: no upper-case
    letter, no punctuation and no white space gets through. *)
Theorem extractKeywords_charset (text : string) :
  Forall (fun w => sforall isKeywordChar w = true) (extractKeywords text).
Proof.
  apply Forall_forall; intros w Hw.
  apply keyword_entry in Hw; destruct Hw as (v & Hin & _).
  apply (in_map fst) in Hin; simpl in Hin.
  apply (counted_keys _ _ (wordCountOf_Counted text)) in Hin.
  now apply (tokensOf_keyword_chars text).
Qed.

(** X2. The tokens that the sentiment and the language heuristics look
    up are made of word characters only.  So the entries of the Spanish
    and French lists that hold an accented letter (que, esta, si, aqui
    and mas with their accents, a with a grave accent and etre with a
    circumflex) are never equal to a token and never score. *)
Theorem accented_entries_never_match (text w : string) :
  In w (nonWordSplit text) ->
  sforall isWordChar w = true /\ ~ In w accentedEntries.
Proof.
  intros Hw; pose proof (nonWordSplit_word_chars text w Hw) as Hchars.
  split; [assumption|].
  unfold accentedEntries; rewrite filter_In; intros [_ H].
  now rewrite Hchars in H.
Qed.

Lemma accented_entries_never_match_witness :
  In "est" (nonWordSplit ("Est" ++ chr 225 ++ " bien"))
  /\ ~ In "est" accentedEntries
  /\ accentedEntries
     = ["qu" ++ chr 233; "est" ++ chr 225; "s" ++ chr 237; "aqu" ++ chr 237;
        "m" ++ chr 225 ++ "s"; chr 224; chr 234 ++ "tre"; chr 234 ++ "tre"].
Proof.
  assert (H : In "est" (nonWordSplit ("Est" ++ chr 225 ++ " bien")))
    by (vm_compute; tauto).
  split; [exact H | split; [|reflexivity]].
  apply (accented_entries_never_match _ _ H).
Defined.

(** X3. The three heuristics that lower-case their input do not see the
    case of the text: two texts with the same lower-case form have the
    same keywords, the same sentiment and the same language. *)
Theorem heuristics_ignore_case (text1 text2 : string) :
  toLowerCase text1 = toLowerCase text2 ->
  extractKeywords text1 = extractKeywords text2
  /\ analyzeSentiment text1 = analyzeSentiment text2
  /\ detectLanguage text1 = detectLanguage text2.
Proof.
  intros H.
  unfold extractKeywords, wordsOf, tokensOf, analyzeSentiment, detectLanguage,
    nonWordSplit.
  now rewrite H.
Qed.

Lemma heuristics_ignore_case_witness :
  extractKeywords "LOUD Words, loud WORDS"
  = extractKeywords "loud words, loud words"
  /\ extractKeywords (toLowerCase "Mixed Case") = extractKeywords "Mixed Case".
Proof.
  split.
  - apply (heuristics_ignore_case "LOUD Words, loud WORDS"
                                  "loud words, loud words"); reflexivity.
  - apply (heuristics_ignore_case (toLowerCase "Mixed Case") "Mixed Case").
    apply toLowerCase_idempotent.
Defined.

End Tokens.

(* ================================================================== *)
(** * More on the keywords, the scores and the summary *)
(* ================================================================== *)

Section Heuristics.

Lemma StronglySorted_app_inv {A : Type} (R : A -> A -> Prop) (l1 l2 : list A) :
  StronglySorted R (l1 ++ l2)%list ->
  forall a b, In a l1 -> In b l2 -> R a b.
Proof.
  induction l1 as [|x l1 IH]; simpl; intros H a b Ha Hb; [contradiction|].
  apply StronglySorted_inv in H; destruct H as [Hl Hx].
  destruct Ha as [<-|Ha]; [|now apply IH].
  rewrite Forall_forall in Hx; apply Hx, in_app_iff; now right.
Qed.

Lemma sort_length {A : Type} (cmp : A -> A -> Z) (l : list A) :
  List.length (sort cmp l) = List.length l.
Proof.
  induction l as [|x l IH]; simpl; [reflexivity|].
  rewrite <- IH; generalize (sort cmp l); intros s.
  induction s as [|y s IHs]; simpl; [reflexivity|].
  destruct (cmp y x <? 0)%Z; simpl; [now rewrite IHs | reflexivity].
Qed.

(** The entries after the sort, in full: by count, then by first
    occurrence. *)
Lemma sorted_wordCount (text : string) :
  StronglySorted (entryBefore (fun w => firstIndex w (tokensOf text)))
                 (sort byCountDesc (wordCountOf (wordsOf text))).
Proof.
  apply sort_sorted.
  apply (proj2 (StronglySorted_map
                  fst
                  (fun a b => firstIndex a (tokensOf text)
                              < firstIndex b (tokensOf text)) _)).
  apply (counted_order _ _ (wordCountOf_Counted text)).
Qed.

Lemma keyword_token_counted (text w : string) :
  In w (tokensOf text) -> isKeyword w = true ->
  In (w, frequency (tokensOf text) w)
     (sort byCountDesc (wordCountOf (wordsOf text))).
Proof.
  intros Hin Hkw.
  destruct (wordCountOf_Counted text) as [_ Hkeys Hvals _].
  assert (Hkey : In w (map fst (wordCountOf (wordsOf text))))
    by (apply Hkeys; now split).
  apply in_map_iff in Hkey; destruct Hkey as ([w' v] & E & Hentry).
  simpl in E; subst w'.
  rewrite (Hvals w v Hentry) in Hentry.
  now apply sort_In.
Qed.

(** X4. [extractKeywords] returns the best-ranked keywords, not just
    some of them: a token of the text that passes the keyword test
    (longer than 3, no stop word) and is not returned is ranked after
    each of the 8 entries that are. *)
Theorem extractKeywords_best (text w : string) :
  In w (tokensOf text) -> isKeyword w = true ->
  In w (extractKeywords text)
  \/ (List.length (extractKeywords text) = 8
      /\ Forall (fun r => rankedBefore (tokensOf text) r w)
                (extractKeywords text)).
Proof.
  intros Hin Hkw.
  pose proof (keyword_token_counted text w Hin Hkw) as Hentry.
  pose proof (sorted_wordCount text) as Hsorted.
  destruct (wordCountOf_Counted text) as [_ _ Hvals _].
  unfold extractKeywords.
  set (sorted := sort byCountDesc (wordCountOf (wordsOf text))) in *.
  rewrite <- (firstn_skipn 8 sorted) in Hentry, Hsorted.
  apply in_app_iff in Hentry; destruct Hentry as [Hfirst|Hrest].
  - left; apply (in_map fst) in Hfirst; exact Hfirst.
  - right; split.
    + rewrite length_map, length_firstn.
      destruct (Nat.le_gt_cases (List.length sorted) 8) as [Hle|Hgt]; [|lia].
      rewrite (skipn_all2 sorted Hle) in Hrest; contradiction.
    + apply Forall_forall; intros r Hr.
      apply in_map_iff in Hr; destruct Hr as ([r' v] & E & Hr).
      simpl in E; subst r'.
      pose proof (StronglySorted_app_inv _ _ _ Hsorted _ _ Hr Hrest) as Hbefore.
      apply In_firstn in Hr; apply sort_In, Hvals in Hr; subst v.
      exact Hbefore.
Qed.

Lemma extractKeywords_best_witness :
  In "kiwi" (extractKeywords "kiwi lime kiwi")
  \/ (List.length (extractKeywords "kiwi lime kiwi") = 8
      /\ Forall (fun r => rankedBefore (tokensOf "kiwi lime kiwi") r "kiwi")
                (extractKeywords "kiwi lime kiwi")).
Proof.
  apply (extractKeywords_best "kiwi lime kiwi" "kiwi").
  - vm_compute; tauto.
  - reflexivity.
Defined.

(** X5. [extractKeywords] returns nothing exactly when no token of the
    text passes the keyword test: a text of short words and stop words
    has no keywords, and every other text has at least one. *)
Theorem extractKeywords_empty_iff (text : string) :
  extractKeywords text = []
  <-> (forall w, In w (tokensOf text) -> isKeyword w = false).
Proof.
  split.
  - intros Hnil w Hin.
    destruct (isKeyword w) eqn:Hkw; [|reflexivity].
    pose proof (keyword_token_counted text w Hin Hkw) as Hentry.
    unfold extractKeywords in Hnil.
    destruct (sort byCountDesc (wordCountOf (wordsOf text))); [contradiction|].
    discriminate Hnil.
  - intros Hnone.
    destruct (extractKeywords text) as [|w rest] eqn:E; [reflexivity|].
    assert (Hw : In w (extractKeywords text)) by (rewrite E; now left).
    apply keyword_entry in Hw; destruct Hw as (v & Hin & _).
    apply (in_map fst) in Hin; simpl in Hin.
    apply (counted_keys _ _ (wordCountOf_Counted text)) in Hin.
    destruct Hin as [Hin Hkw]; rewrite (Hnone w Hin) in Hkw; discriminate.
Qed.

Lemma extractKeywords_empty_iff_witness :
  extractKeywords "This is it, and that was all." = [].
Proof.
  apply (extractKeywords_empty_iff "This is it, and that was all.").
  intros w Hw; vm_compute in Hw.
  repeat (destruct Hw as [<-|Hw]; [reflexivity|]); contradiction.
Defined.

(** X6. After the counting loop, [wordCount.get(w)] is the number of
    times [w] occurs among the tokens of the text when [w] passes the
    keyword test and occurs at all, and is undefined otherwise. *)
Theorem wordCount_get (text w : string) :
  mapGet (wordCountOf (wordsOf text)) w
  = if isKeyword w && (0 <? frequency (tokensOf text) w)
    then Some (frequency (tokensOf text) w)
    else None.
Proof.
  destruct (wordCountOf_Counted text) as [_ Hkeys Hvals _].
  assert (Hocc : In w (tokensOf text) <-> 0 < frequency (tokensOf text) w)
    by apply (count_occ_In string_dec).
  destruct (mapGet (wordCountOf (wordsOf text)) w) as [v|] eqn:Hget.
  - pose proof (mapGet_Some_In _ _ _ Hget) as Hentry.
    rewrite (Hvals w v Hentry).
    apply (in_map fst) in Hentry; apply Hkeys in Hentry; simpl in Hentry.
    destruct Hentry as [Hin Hkw]; rewrite Hkw.
    apply Hocc, Nat.ltb_lt in Hin; now rewrite Hin.
  - apply mapGet_None in Hget.
    destruct (isKeyword w) eqn:Hkw; [|reflexivity].
    destruct (0 <? frequency (tokensOf text) w) eqn:Hpos; [|reflexivity].
    exfalso; apply Hget, Hkeys; split; [|assumption].
    now apply Hocc, Nat.ltb_lt.
Qed.

(** ** The counters of the two [forEach] loops *)

Lemma sentimentCounts_from (words : list string) (p n : nat) :
  fold_left
    (fun '(positiveCount, negativeCount) word =>
       ((if includes positiveWords word then S positiveCount
         else positiveCount),
        (if includes negativeWords word then S negativeCount
         else negativeCount)))
    words (p, n)
  = (p + hits positiveWords words, n + hits negativeWords words).
Proof.
  unfold hits; revert p n; induction words as [|w words IH]; intros p n;
    cbn [fold_left filter].
  - cbn [List.length]; now rewrite !Nat.add_0_r.
  - rewrite IH.
    destruct (includes positiveWords w), (includes negativeWords w);
      cbn [List.length]; f_equal; lia.
Qed.

Lemma languageScores_from (words : list string) (e s f : nat) :
  fold_left
    (fun '(englishScore, spanishScore, frenchScore) word =>
       ((if includes commonEnglishWords word then S englishScore
         else englishScore),
        (if includes commonSpanishWords word then S spanishScore
         else spanishScore),
        (if includes commonFrenchWords word then S frenchScore
         else frenchScore)))
    words (e, s, f)
  = (e + hits commonEnglishWords words,
     s + hits commonSpanishWords words,
     f + hits commonFrenchWords words).
Proof.
  unfold hits; revert e s f; induction words as [|w words IH];
    intros e s f; cbn [fold_left filter].
  - cbn [List.length]; now rewrite !Nat.add_0_r.
  - rewrite IH.
    destruct (includes commonEnglishWords w), (includes commonSpanishWords w),
      (includes commonFrenchWords w); cbn [List.length];
      rewrite <- ?plus_n_Sm; reflexivity.
Qed.

(** X7. The sentiment is decided by two counts alone, the tokens of the
    text found in the positive list and those found in the negative
    list: positive exactly when the first count is the larger, negative
    exactly when the second is, neutral exactly when they are equal
    (so for a text with no listed word, and for the empty text). *)
Theorem analyzeSentiment_by_counts (text : string) :
  let pos := hits positiveWords (nonWordSplit text) in
  let neg := hits negativeWords (nonWordSplit text) in
  (analyzeSentiment text = positive <-> neg < pos)
  /\ (analyzeSentiment text = negative <-> pos < neg)
  /\ (analyzeSentiment text = neutral <-> pos = neg).
Proof.
  cbv zeta; unfold analyzeSentiment, sentimentCounts.
  rewrite sentimentCounts_from, !Nat.add_0_l.
  destruct (Nat.ltb_spec (hits negativeWords (nonWordSplit text))
                         (hits positiveWords (nonWordSplit text))) as [H|H].
  - repeat split; intros; try lia; try discriminate; reflexivity.
  - destruct (Nat.ltb_spec (hits positiveWords (nonWordSplit text))
                           (hits negativeWords (nonWordSplit text))) as [H'|H'];
      repeat split; intros; try lia; try discriminate; reflexivity.
Qed.

(** X8. The language is decided by three counts over the first 100
    tokens, and ties go to English first and to Spanish second:
    English exactly when its count is at least both others, Spanish
    exactly when its count is above the English one and at least the
    French one, French exactly when its count is above both others. *)
Theorem detectLanguage_by_counts (text : string) :
  let words := firstn 100 (nonWordSplit text) in
  let en := hits commonEnglishWords words in
  let es := hits commonSpanishWords words in
  let fr := hits commonFrenchWords words in
  (detectLanguage text = "English" <-> es <= en /\ fr <= en)
  /\ (detectLanguage text = "Spanish" <-> en < es /\ fr <= es)
  /\ (detectLanguage text = "French" <-> en < fr /\ es < fr).
Proof.
  cbv zeta; unfold detectLanguage, languageScores.
  rewrite languageScores_from.
  set (words := firstn 100 (nonWordSplit text)).
  unfold pickLanguage; rewrite !Nat.add_0_l.
  destruct (Nat.leb_spec (hits commonSpanishWords words)
                         (hits commonEnglishWords words)) as [Hse|Hse];
    destruct (Nat.leb_spec (hits commonFrenchWords words)
                           (hits commonEnglishWords words)) as [Hfe|Hfe];
    simpl;
    try (repeat split; intros; try lia; try discriminate; reflexivity);
    destruct (Nat.leb_spec (hits commonFrenchWords words)
                           (hits commonSpanishWords words)) as [Hfs|Hfs];
    try (repeat split; intros; try lia; try discriminate; reflexivity);
    destruct (Nat.ltb_spec 0 (hits commonFrenchWords words)) as [Hf|Hf];
    try (repeat split; intros; try lia; try discriminate; reflexivity);
    lia.
Qed.

(** X9. A text without sentence mark (no full stop, exclamation or
    question mark) that has more than 10 characters once trimmed and at
    most 200 in all is its own summary, white space included. *)
Theorem generateSummary_single_sentence (text : string) :
  sforall (fun c => negb (isSentenceEnd c)) text = true ->
  10 < String.length (trim text) ->
  String.length text <= 200 ->
  generateSummary text = text.
Proof.
  intros Hmarks Htrim Hlen.
  assert (Hfirst : firstSentencesOf text = text).
  { unfold firstSentencesOf, sentencesOf, split.
    rewrite (splitLoop_no_separator _ _ "" Hmarks); simpl.
    apply Nat.ltb_lt in Htrim; now rewrite Htrim. }
  unfold generateSummary; rewrite Hfirst.
  apply Nat.ltb_ge in Hlen; rewrite Hlen.
  destruct text; [simpl in Htrim; lia | reflexivity].
Qed.

Lemma generateSummary_single_sentence_witness :
  generateSummary "  a plain line of words  " = "  a plain line of words  ".
Proof.
  apply generateSummary_single_sentence.
  - reflexivity.
  - vm_compute; lia.
  - vm_compute; lia.
Defined.

End Heuristics.

(* ================================================================== *)
(** * The binary report: strings, hexadecimal digits, signatures *)
(* ================================================================== *)

Section BinaryReport.

Lemma printable_ascii_of_byte (b : byte) :
  printableAscii (ascii_of_byte b) = printable b.
Proof.
  destruct b; reflexivity.
Qed.

Lemma list_byte_of_string_snoc (s : string) (c : ascii) :
  list_byte_of_string (s ++ String c "")
  = (list_byte_of_string s ++ [byte_of_ascii c])%list.
Proof.
  unfold list_byte_of_string.
  induction s as [|d s IH]; simpl; [reflexivity | now rewrite IH].
Qed.

Lemma current_collected (whole pre post : list byte) (cur : string)
      (strings : list string) :
  whole = (pre ++ list_byte_of_string cur ++ post)%list ->
  endsUnprintable pre -> startsUnprintable post ->
  sforall printableAscii cur = true ->
  Forall (collected whole) strings ->
  Forall (collected whole)
         (if 4 <=? String.length cur then cur :: strings else strings).
Proof.
  intros Hwhole Hpre Hpost Hcur Hstrings.
  destruct (Nat.leb_spec 4 (String.length cur)) as [Hlen|_]; [|assumption].
  constructor; [|assumption].
  split; [assumption|].
  split; [assumption|].
  exists pre, post; auto.
Qed.

Lemma stringsLoop_collected (whole : list byte) :
  forall (data done pre : list byte) (strings : list string) (cur : string),
    whole = (done ++ data)%list ->
    done = (pre ++ list_byte_of_string cur)%list ->
    endsUnprintable pre ->
    sforall printableAscii cur = true ->
    Forall (collected whole) strings ->
    Forall (collected whole) (stringsLoop data strings cur).
Proof.
  induction data as [|char rest IH];
    intros done pre strings cur Hwhole Hdone Hpre Hcur Hstrings; simpl.
  - apply Forall_rev.
    apply (current_collected whole pre []); try assumption; [|exact I].
    now rewrite Hwhole, Hdone, !app_nil_r.
  - assert (Hnext : whole = ((done ++ [char]) ++ rest)%list)
      by now rewrite Hwhole, <- app_assoc.
    destruct (printable char) eqn:Hchar.
    + apply (IH (done ++ [char])%list pre); try assumption.
      * rewrite list_byte_of_string_snoc, byte_of_ascii_of_byte, Hdone.
        now rewrite <- app_assoc.
      * rewrite sforall_append, Hcur; simpl.
        now rewrite printable_ascii_of_byte, Hchar.
    + apply (IH (done ++ [char])%list (done ++ [char])%list);
        try assumption.
      * now rewrite app_nil_r.
      * right; exists done, char; auto.
      * reflexivity.
      * apply (current_collected whole pre (char :: rest)); try assumption.
        now rewrite Hwhole, Hdone, <- app_assoc.
Qed.

Lemma Forall_filter_keep {A : Type} (f : A -> bool) (Q : A -> Prop)
      (l : list A) :
  Forall Q l -> Forall Q (filter f l).
Proof.
  rewrite !Forall_forall; intros H x Hx; apply filter_In in Hx; now apply H.
Qed.

Lemma Forall_firstn_keep {A : Type} (n : nat) (Q : A -> Prop) (l : list A) :
  Forall Q l -> Forall Q (firstn n l).
Proof.
  rewrite !Forall_forall; intros H x Hx; apply In_firstn in Hx; now apply H.
Qed.

(** X10. [extractStrings] returns at most 100 strings, and each is a
    run of printable ASCII bytes (32 to 126) of the data, at least 4
    long and maximal: the byte before it and the byte after it, where
    there is one, are not printable. *)
Theorem extractStrings_runs (data : list byte) :
  List.length (extractStrings data) <= 100
  /\ Forall (fun s => 4 <= String.length s /\ isRun data s)
            (extractStrings data).
Proof.
  split; [apply firstn_le_length|].
  unfold extractStrings; fold (collected data).
  apply Forall_firstn_keep, Forall_filter_keep.
  apply (stringsLoop_collected data data [] []); auto.
  now left.
Qed.

(** The filter at the end of [extractStrings] removes nothing: the loop
    only collects strings of 4 and more. *)
Lemma extractStrings_filter_idle (data : list byte) :
  filter (fun s => 4 <=? String.length s) (stringsLoop data [] "")
  = stringsLoop data [] "".
Proof.
  apply forallb_filter_id, forallb_forall; intros s Hs.
  pose proof (stringsLoop_collected data data [] [] [] "" eq_refl eq_refl
                (or_introl eq_refl) eq_refl (Forall_nil _)) as H.
  rewrite Forall_forall in H; destruct (H s Hs) as [Hlen _].
  now apply Nat.leb_le.
Qed.

Lemma unhex_hex2 (b : byte) (rest : string) :
  unhex (hex2 b ++ rest) = option_map (cons b) (unhex rest).
Proof.
  destruct b; simpl; destruct (unhex rest); reflexivity.
Qed.

Lemma unhex_upper_hex2 (b : byte) (rest : string) :
  unhex (toUpperCase (hex2 b) ++ rest) = option_map (cons b) (unhex rest).
Proof.
  destruct b; simpl; destruct (unhex rest); reflexivity.
Qed.

(** X11. The two hexadecimal digits that the binary report prints for a
    byte are lower-case digits, two of them for every byte (small
    values get a leading 0), and they spell the byte back: different
    bytes never print alike. *)
Theorem hex2_spells_byte (b : byte) :
  String.length (hex2 b) = 2
  /\ sforall (fun c => between 48 57 c || between 97 102 c) (hex2 b) = true
  /\ unhex (hex2 b) = Some [b].
Proof.
  destruct b; repeat split; reflexivity.
Qed.

Lemma smap_append (f : ascii -> ascii) (s t : string) :
  smap f (s ++ t) = smap f s ++ smap f t.
Proof.
  induction s as [|c s IH]; simpl; [reflexivity | now rewrite IH].
Qed.

Lemma lookup_In (table : list (string * string)) (key value : string) :
  lookup table key = Some value -> In (key, value) table.
Proof.
  induction table as [|[k' v'] table IH]; simpl; [discriminate|].
  destruct (String.eqb_spec k' key) as [->|_].
  - intros [= ->]; now left.
  - intros H; right; now apply IH.
Qed.

(** The key that [detectFileSignature] looks up spells the first bytes
    of the data, four of them at most. *)
Lemma signature_key_unhex (data : list byte) :
  unhex (toUpperCase (join "" (map hex2 (firstn 4 data))))
  = Some (firstn 4 data).
Proof.
  unfold join.
  assert (H : forall l : list byte,
             unhex (toUpperCase (String.concat "" (map hex2 l))) = Some l).
  { induction l as [|b l IH]; [reflexivity|].
    assert (E : String.concat "" (map hex2 (b :: l))
                = hex2 b ++ String.concat "" (map hex2 l)).
    { simpl; destruct (map hex2 l); [now rewrite append_empty | reflexivity]. }
    pose proof (unhex_upper_hex2 b) as Hb.
    unfold toUpperCase in *.
    now rewrite E, smap_append, Hb, IH. }
  apply H.
Qed.

(** X12. [detectFileSignature] names a format exactly when the data
    starts with the four bytes of one of the eight magic numbers of the
    table, and then names that format; data of fewer than four bytes
    has no signature. *)
Theorem detectFileSignature_magic (data : list byte) (format : string) :
  detectFileSignature data = Some format
  <-> exists magic rest,
      In (magic, format) magicNumbers /\ data = (magic ++ rest)%list.
Proof.
  split.
  - unfold detectFileSignature; intros H; apply lookup_In in H.
    pose proof (signature_key_unhex data) as Hkey.
    exists (firstn 4 data), (skipn 4 data).
    split; [|now rewrite firstn_skipn].
    remember (firstn 4 data) as first4 eqn:Efirst.
    remember (toUpperCase (join "" (map hex2 first4))) as key eqn:Ekey.
    clear Efirst Ekey.
    unfold signatures in H; simpl in H.
    repeat (destruct H as [[= Hk <-]|H];
            [rewrite <- Hk in Hkey; vm_compute in Hkey;
             injection Hkey as <-; simpl; tauto|]).
    contradiction.
  - intros (magic & rest & Hin & ->).
    unfold magicNumbers in Hin; simpl In in Hin.
    repeat (destruct Hin as [[= <- <-]|Hin]; [reflexivity|]).
    contradiction.
Qed.

Lemma detectFileSignature_magic_witness :
  detectFileSignature [x25; x50; x44; x46; x2d; x31] = Some "PDF Document"
  /\ detectFileSignature [x25; x50; x44] = None.
Proof.
  split.
  - apply (detectFileSignature_magic [x25; x50; x44; x46; x2d; x31]).
    exists [x25; x50; x44; x46], [x2d; x31].
    split; [simpl; tauto | reflexivity].
  - destruct (detectFileSignature [x25; x50; x44]) as [format|] eqn:E;
      [|reflexivity].
    apply (detectFileSignature_magic [x25; x50; x44]) in E.
    destruct E as (magic & rest & Hin & E); simpl in Hin.
    repeat (destruct Hin as [[= <- _]|Hin]; [discriminate E|]).
    contradiction.
Defined.

End BinaryReport.

(* ================================================================== *)
(** * How a conversion fails, and what it gives for an image *)
(* ================================================================== *)

Section Outcomes.
Variable P : Platform.

Lemma readTextFile_message (file : File) (message : string) :
  readTextFile P file = Throw message -> message = "Failed to read file".
Proof.
  unfold readTextFile; destruct (FileReader_readAsText P file); simpl;
    [discriminate | now intros [= <-]].
Qed.

(** A [try] whose [catch] throws a fixed message fails with it only. *)
Lemma tryCatch_message (body : result string) (fixed message : string) :
  tryCatch body (fun _ => Throw fixed) = Throw message -> message = fixed.
Proof.
  destruct body; simpl; [discriminate | now intros [= <-]].
Qed.

Lemma throw_message (file : File) (message : string) :
  convertFileToText P file = Throw message ->
  strategyOf file <> ImageRule /\ message = failureMessage file.
Proof.
  unfold failureMessage.
  destruct (strategyOf file) eqn:Hrule; intros H.
  - rewrite (convertFileToText_text P file Hrule) in H.
    split; [discriminate | now apply (readTextFile_message file)].
  - rewrite (convertFileToText_json P file Hrule) in H.
    split; [discriminate|].
    destruct (readTextFile P file) as [text|m] eqn:Hread; simpl in H.
    + destruct (JSON_parse P text); discriminate H.
    + injection H as <-; now apply (readTextFile_message file).
  - rewrite (convertFileToText_raw P file) in H
      by (rewrite Hrule; simpl; tauto).
    split; [discriminate | now apply (readTextFile_message file)].
  - rewrite (convertFileToText_raw P file) in H
      by (rewrite Hrule; simpl; tauto).
    split; [discriminate | now apply (readTextFile_message file)].
  - rewrite (convertFileToText_word P file Hrule) in H.
    split; [discriminate | now apply tryCatch_message in H].
  - rewrite (convertFileToText_excel P file Hrule) in H.
    split; [discriminate | now apply tryCatch_message in H].
  - rewrite (convertFileToText_pdf P file Hrule) in H.
    split; [discriminate | now apply tryCatch_message in H].
  - rewrite (convertFileToText_image P file Hrule) in H.
    destruct (convertImageToText_total P file) as [text Hok].
    rewrite Hok in H; discriminate H.
  - rewrite (convertFileToText_archive P file Hrule) in H.
    split; [discriminate | now apply tryCatch_message in H].
  - rewrite (convertFileToText_raw P file) in H
      by (rewrite Hrule; simpl; tauto).
    split; [discriminate | now apply (readTextFile_message file)].
  - rewrite (convertFileToText_raw P file) in H
      by (rewrite Hrule; simpl; tauto).
    split; [discriminate | now apply (readTextFile_message file)].
  - rewrite (convertFileToText_fallback P file Hrule) in H.
    split; [discriminate | now apply tryCatch_message in H].
Qed.

(** X13. [convertFileToText] fails in one way per rule: when it throws,
    the file was not taken by the image rule, and the message is the
    fixed one of the rule that took it ("Failed to read file" for the
    rules that read text, the message of the document, spreadsheet, PDF
    or archive strategy, "Unsupported file type: ..." for the fallback).
    The message of a collaborator never comes through. *)
Theorem convertFileToText_failure (file : File) (message : string) :
  convertFileToText P file = Throw message ->
  strategyOf file <> ImageRule /\ message = failureMessage file.
Proof.
  apply throw_message.
Qed.

(** X14. For a file the image rule takes, the result always ends with
    the metadata of the image: it is the metadata alone when the OCR
    throws or recognizes nothing but white space, and the recognized
    text under its header followed by the metadata otherwise. *)
Theorem image_result_ends_with_metadata (file : File) :
  strategyOf file = ImageRule ->
  (forall text,
      Tesseract_recognize P file = Ok text -> trim text <> "" ->
      convertFileToText P file
      = Ok ("OCR Text Content:" ++ nl ++ text ++ nl ++ nl
              ++ extractImageMetadata P file))
  /\ (forall text,
         Tesseract_recognize P file = Ok text -> trim text = "" ->
         convertFileToText P file = Ok (extractImageMetadata P file))
  /\ (forall message,
         Tesseract_recognize P file = Throw message ->
         convertFileToText P file = Ok (extractImageMetadata P file))
  /\ (exists header,
         convertFileToText P file = Ok (header ++ extractImageMetadata P file)
         /\ (header = ""
             <-> (forall text, Tesseract_recognize P file = Ok text ->
                               trim text = ""))).
Proof.
  intros Hrule; rewrite (convertFileToText_image P file Hrule).
  unfold convertImageToText.
  split; [|split; [|split]].
  - intros text Hocr Hsome; rewrite Hocr; simpl.
    now destruct (String.eqb_spec (trim text) "").
  - intros text Hocr Hblank; rewrite Hocr; simpl.
    now rewrite Hblank.
  - intros message Hocr; now rewrite Hocr.
  - destruct (Tesseract_recognize P file) as [text|m]; simpl.
    + destruct (String.eqb_spec (trim text) "") as [Hblank|Hsome].
      * exists ""; split; [reflexivity|].
        split; [|reflexivity].
        intros _ text' E; now injection E as <-.
      * exists ("OCR Text Content:" ++ nl ++ text ++ nl ++ nl); split.
        -- now rewrite !append_assoc.
        -- split; [discriminate|].
           intros Hall; destruct Hsome; now apply Hall.
    + exists ""; split; [reflexivity|].
      split; [|reflexivity].
      intros _ text E; discriminate E.
Qed.

(** X15. The declared type never brings a file to the SVG rule: a file
    that rule takes has a name ending in .svg and a declared type that
    does not start with [image/], so the test for [image/svg+xml] in
    that rule decides nothing. *)
Theorem svg_rule_by_name_only (file : File) :
  strategyOf file = SvgRule ->
  endsWith (toLowerCase (name file)) ".svg" = true
  /\ startsWith (toLowerCase (type file)) "image/" = false
  /\ toLowerCase (type file) <> "image/svg+xml".
Proof.
  unfold strategyOf, dispatch.
  set (fileName := toLowerCase (name file)).
  set (fileType := toLowerCase (type file)).
  destruct (isTextFile fileName fileType); [discriminate|].
  destruct (isJsonFile fileName fileType); [discriminate|].
  destruct (isMarkupFile fileName fileType); [discriminate|].
  destruct (isScriptFile fileName fileType); [discriminate|].
  destruct (isWordFile fileName fileType); [discriminate|].
  destruct (isExcelFile fileName fileType); [discriminate|].
  destruct (isPdfFile fileName fileType); [discriminate|].
  destruct (isImageFile fileName fileType) eqn:Himage; [discriminate|].
  destruct (isArchiveFile fileName); [discriminate|].
  destruct (isSvgFile fileName fileType) eqn:Hsvg;
    [|destruct (isLogFile fileName); discriminate].
  intros _.
  assert (Hprefix : startsWith fileType "image/" = false).
  { unfold isImageFile in Himage.
    destruct (startsWith fileType "image/"); [discriminate Himage | reflexivity]. }
  assert (Hnot : fileType <> "image/svg+xml").
  { intros E; rewrite E in Hprefix; discriminate Hprefix. }
  repeat split; try assumption.
  unfold isSvgFile in Hsvg; apply orb_prop in Hsvg.
  destruct Hsvg as [Hmime|Hname]; [|assumption].
  apply String.eqb_eq in Hmime; contradiction.
Qed.

End Outcomes.

Lemma convertFileToText_failure_witness :
  convertFileToText samplePlatform letterDocx
  = Throw "Failed to convert DOCX file"
  /\ failureMessage letterDocx = "Failed to convert DOCX file".
Proof.
  assert (H : convertFileToText samplePlatform letterDocx
              = Throw "Failed to convert DOCX file") by reflexivity.
  split; [exact H|].
  symmetry; apply (convertFileToText_failure samplePlatform letterDocx _ H).
Defined.

Lemma image_result_ends_with_metadata_witness :
  convertFileToText readingPlatform photoPng
  = Ok ("OCR Text Content:" ++ nl ++ "HELLO" ++ nl ++ nl
          ++ extractImageMetadata readingPlatform photoPng)
  /\ convertFileToText readingPlatform blankPng
     = Ok (extractImageMetadata readingPlatform blankPng)
  /\ convertFileToText samplePlatform photoPng
     = Ok (extractImageMetadata samplePlatform photoPng).
Proof.
  destruct (image_result_ends_with_metadata readingPlatform photoPng eq_refl)
    as (Hread & _).
  destruct (image_result_ends_with_metadata readingPlatform blankPng eq_refl)
    as (_ & Hblank & _).
  destruct (image_result_ends_with_metadata samplePlatform photoPng eq_refl)
    as (_ & _ & Hthrow & _).
  split; [|split].
  - apply Hread; [reflexivity | vm_compute; discriminate].
  - apply (Hblank ("  " ++ nl)); reflexivity.
  - apply (Hthrow "worker failed"); reflexivity.
Defined.

Lemma svg_rule_by_name_only_witness :
  strategyOf (mkFile "drawing.SVG" "" 0 0) = SvgRule
  /\ endsWith (toLowerCase (name (mkFile "drawing.SVG" "" 0 0))) ".svg" = true.
Proof.
  split; [reflexivity|].
  apply (svg_rule_by_name_only (mkFile "drawing.SVG" "" 0 0)); reflexivity.
Defined.

(* ================================================================== *)
(** * Sizes below the end of the table, and the pages of a PDF *)
(* ================================================================== *)

Section SizesAndPages.

(** X16. For a byte count from 1 up to 1024^4 - 1, [formatFileSize]
    prints a number, a space and one of the four unit names; the unit
    is the largest power of 1024 that is at most the count, and the
    number is the count divided by it, rounded to the nearest hundredth
    (a tie going up), which lies between 1 and 1024. *)
Theorem formatFileSize_scaled (bytes : N) :
  (0 < bytes)%N -> (bytes < k ^ 4)%N ->
  let i := unitIndex bytes in
  let h := hundredths bytes i in
  nth_error sizes (N.to_nat i) = Some (sizeName i)
  /\ (k ^ i <= bytes < k ^ (i + 1))%N
  /\ formatFileSize bytes = showHundredths h ++ " " ++ sizeName i
  /\ (2 * h * k ^ i <= 2 * 100 * bytes + k ^ i < 2 * (h + 1) * k ^ i)%N
  /\ (100 <= h <= 102400)%N.
Proof.
  intros Hpos Hlt; cbv zeta.
  destruct (formatFileSize_in_table bytes Hpos Hlt) as (Hidx & _ & Htext).
  pose proof (unitIndex_scale bytes Hpos) as Hscale.
  pose proof (hundredths_nearest bytes (unitIndex bytes)) as Hnear.
  assert (Hname : nth_error sizes (N.to_nat (unitIndex bytes))
                  = Some (sizeName (unitIndex bytes))).
  { assert (Hcases : (unitIndex bytes = 0 \/ unitIndex bytes = 1
                      \/ unitIndex bytes = 2 \/ unitIndex bytes = 3)%N) by lia.
    destruct Hcases as [E | [E | [E | E]]]; rewrite E; reflexivity. }
  split; [assumption|]; split; [tauto|]; split; [assumption|].
  split; [tauto|].
  rewrite N.add_1_r, N.pow_succ_r' in Hscale.
  assert (Hk : (0 < k ^ unitIndex bytes)%N).
  { rewrite k_pow; pose proof (N.pow_nonzero 2 (10 * unitIndex bytes)); lia. }
  unfold k in Hscale at 2.
  generalize dependent (hundredths bytes (unitIndex bytes)).
  generalize dependent (k ^ unitIndex bytes)%N.
  intros; nia.
Qed.

Lemma formatFileSize_scaled_witness :
  (0 < 1536)%N /\ (1536 < k ^ 4)%N
  /\ formatFileSize 1536 = "1.5 KB"
  /\ hundredths 1536 (unitIndex 1536) = 150%N.
Proof.
  assert (Hpos : (0 < 1536)%N) by reflexivity.
  assert (Hlt : (1536 < k ^ 4)%N) by reflexivity.
  destruct (formatFileSize_scaled 1536 Hpos Hlt) as (_ & _ & Htext & _).
  split; [exact Hpos | split; [exact Hlt | split; [|reflexivity]]].
  rewrite Htext; reflexivity.
Defined.

(** X17. A count below 1024 is printed as it is, in bytes: no scaling,
    no rounding and no fraction. *)
Theorem formatFileSize_small (bytes : N) :
  (0 < bytes)%N -> (bytes < k)%N ->
  formatFileSize bytes = decimal bytes ++ " Bytes".
Proof.
  intros Hpos Hlt.
  assert (Hidx : unitIndex bytes = 0%N).
  { unfold unitIndex; rewrite log2_k.
    assert (N.log2 bytes < 10)%N
      by (apply N.log2_lt_pow2; [assumption | exact Hlt]).
    now apply N.div_small. }
  assert (Hh : hundredths bytes 0 = (100 * bytes)%N).
  { unfold hundredths; change (k ^ 0)%N with 1%N.
    symmetry; apply (N.div_unique _ _ _ 1%N); lia. }
  unfold formatFileSize.
  destruct (N.eqb_spec bytes 0) as [E|_]; [lia|].
  rewrite Hidx, Hh; unfold showHundredths.
  replace (100 * bytes mod 100)%N with 0%N
    by (symmetry; rewrite N.mul_comm; apply N.Div0.mod_mul).
  replace (100 * bytes / 100)%N with bytes
    by (symmetry; rewrite N.mul_comm; apply N.div_mul; lia).
  reflexivity.
Qed.

Lemma formatFileSize_small_witness :
  (0 < 1023)%N /\ (1023 < k)%N /\ formatFileSize 1023 = "1023 Bytes".
Proof.
  assert (Hpos : (0 < 1023)%N) by reflexivity.
  assert (Hlt : (1023 < k)%N) by reflexivity.
  split; [exact Hpos | split; [exact Hlt|]].
  apply (formatFileSize_small 1023 Hpos Hlt).
Defined.

Lemma concat_empty_cons (x : string) (l : list string) :
  String.concat "" (x :: l) = x ++ String.concat "" l.
Proof.
  simpl; destruct l; [now rewrite append_empty | reflexivity].
Qed.

Lemma pagesText_blocks (pages : list (list string)) (pageNum : N)
      (fullText : string) :
  pagesText pages pageNum fullText
  = fullText ++ String.concat "" (pageBlocks pageNum pages).
Proof.
  revert pageNum fullText; induction pages as [|items rest IH];
    intros pageNum fullText.
  - simpl; now rewrite append_empty.
  - cbn [pagesText pageBlocks]; rewrite IH, concat_empty_cons.
    unfold pageBlock; now rewrite !append_assoc.
Qed.

Lemma pageBlocks_nth (pages : list (list string)) (first : N) (i : nat)
      (items : list string) :
  nth_error pages i = Some items ->
  nth_error (pageBlocks first pages) i
  = Some (pageBlock (first + N.of_nat i) items).
Proof.
  revert first i; induction pages as [|p rest IH]; intros first [|i]; simpl;
    try discriminate.
  - intros [= ->]; now rewrite N.add_0_r.
  - intros H; rewrite (IH (first + 1)%N i H).
    do 2 f_equal; lia.
Qed.

(** X18. The text of a PDF is the blocks of its pages, in the order of
    the pages and trimmed as a whole; the block of the page at index
    [i] (from 0) carries the number [i + 1]: pages are numbered from 1,
    without gap. *)
Theorem convertPdfToText_pages (P : Platform) (file : File)
        (data : list byte) (pages : list (list string)) :
  File_arrayBuffer P file = Ok data ->
  pdfjs_getDocument P data = Ok pages ->
  convertPdfToText P file
  = Ok (trim (String.concat "" (pageBlocks 1 pages)))
  /\ List.length (pageBlocks 1 pages) = List.length pages
  /\ (forall i items,
         nth_error pages i = Some items ->
         nth_error (pageBlocks 1 pages) i
         = Some ("Page " ++ decimal (N.of_nat i + 1) ++ ":" ++ nl
                   ++ join " " items ++ nl ++ nl)).
Proof.
  intros Hbuf Hdoc; repeat split.
  - unfold convertPdfToText; rewrite Hbuf; simpl; rewrite Hdoc; simpl.
    now rewrite pagesText_blocks.
  - clear Hdoc; generalize 1%N; induction pages as [|p rest IH];
      intros n; simpl; [reflexivity | now rewrite IH].
  - intros i items Hi; rewrite (pageBlocks_nth _ _ _ _ Hi).
    unfold pageBlock; now rewrite N.add_comm.
Qed.

Lemma convertPdfToText_pages_witness :
  convertPdfToText samplePlatform serverLog
  = Ok (trim (String.concat "" (pageBlocks 1 [["Hello"; "world"]]))).
Proof.
  apply (convertPdfToText_pages samplePlatform serverLog [x5b; x31; x5d]);
    reflexivity.
Defined.

End SizesAndPages.

(* ================================================================== *)
(** * The component: names, paths, the report *)
(* ================================================================== *)

Import Component ComponentNotions ComponentSamples.

Section Names.

Lemma stripExtension_cut (base ext : string) :
  ext <> "" -> sforall isExtensionChar ext = true ->
  stripExtension (base ++ "." ++ ext) = base.
Proof.
  intros Hext Hchars; induction base as [|c base IH].
  - simpl; apply String.eqb_neq in Hext; now rewrite Hext, Hchars.
  - simpl in IH |- *; rewrite sforall_append; simpl.
    now rewrite andb_false_r, andb_false_r, IH.
Qed.

Lemma stripExtension_keep (name : string) :
  (forall base ext, name = base ++ "." ++ ext ->
                    ext = "" \/ sforall isExtensionChar ext = false) ->
  stripExtension name = name.
Proof.
  induction name as [|c r IH]; intros H; simpl; [reflexivity|].
  destruct (Ascii.eqb c "." && negb (String.eqb r "")
            && sforall isExtensionChar r) eqn:Hcut.
  - apply andb_prop in Hcut; destruct Hcut as [Hcut Hchars].
    apply andb_prop in Hcut; destruct Hcut as [Hdot Hrest].
    apply Ascii.eqb_eq in Hdot; subst c.
    apply negb_true_iff, String.eqb_neq in Hrest.
    destruct (H "" r eq_refl) as [E|E]; [contradiction | congruence].
  - f_equal; apply IH; intros base ext E.
    apply (H (String c base) ext); simpl; now rewrite E.
Qed.

(** X19. The download name of a converted file: when the name is
    [base.ext] with an extension of one or more characters free of dots
    and slashes, it is [base.txt], whatever the extension (so [a.pdf]
    and [a.docx] both give [a.txt], and [.bashrc] gives [.txt]); when
    the name has no such extension it is the whole name followed by
    [.txt]. *)
Theorem downloadName_extension (file : ConvertedFile.t) :
  (forall base ext,
      ConvertedFile.name file = base ++ "." ++ ext ->
      ext <> "" -> sforall isExtensionChar ext = true ->
      downloadName file = base ++ ".txt")
  /\ ((forall base ext,
          ConvertedFile.name file = base ++ "." ++ ext ->
          ext = "" \/ sforall isExtensionChar ext = false) ->
      downloadName file = ConvertedFile.name file ++ ".txt").
Proof.
  unfold downloadName; split.
  - intros base ext -> Hext Hchars; now rewrite stripExtension_cut.
  - intros H; now rewrite stripExtension_keep.
Qed.

Lemma downloadName_extension_witness :
  downloadName (ConvertedFile.mk "7-0" "notes.tar.gz" "" "" 0 "" false None None)
  = "notes.tar.txt".
Proof.
  apply (proj1 (downloadName_extension
                  (ConvertedFile.mk "7-0" "notes.tar.gz" "" "" 0 "" false
                                    None None))
               "notes.tar" "gz");
    [reflexivity | discriminate | reflexivity].
Defined.

(** ** Paths *)

Lemma splitChar_nonempty (sep : ascii) (s : string) : splitChar sep s <> [].
Proof.
  destruct s as [|c r]; simpl; [discriminate|].
  destruct (Ascii.eqb c sep); [discriminate|].
  destruct (splitChar sep r); discriminate.
Qed.

Lemma splitChar_whole (sep : ascii) (s : string) :
  sforall (fun c => negb (Ascii.eqb c sep)) s = true -> splitChar sep s = [s].
Proof.
  induction s as [|c r IH]; simpl; [reflexivity|].
  intros H; apply andb_prop in H; destruct H as [Hc Hr].
  apply negb_true_iff in Hc; now rewrite Hc, IH.
Qed.

Lemma splitChar_append (sep : ascii) (a b : string) :
  splitChar sep (a ++ String sep b)
  = (splitChar sep a ++ splitChar sep b)%list.
Proof.
  induction a as [|c a IH]; simpl.
  - now rewrite Ascii.eqb_refl.
  - destruct (Ascii.eqb c sep); [now rewrite IH|].
    rewrite IH.
    pose proof (splitChar_nonempty sep a) as Hne.
    destruct (splitChar sep a) as [|p ps]; [contradiction | reflexivity].
Qed.

(** Joining the pieces with the separator gives the text back. *)
Lemma join_splitChar (sep : ascii) (s : string) :
  join (String sep "") (splitChar sep s) = s.
Proof.
  unfold join; induction s as [|c r IH]; simpl; [reflexivity|].
  pose proof (splitChar_nonempty sep r) as Hne.
  destruct (Ascii.eqb_spec c sep) as [->|_].
  - destruct (splitChar sep r) as [|p ps]; [contradiction|].
    simpl in *; now rewrite IH.
  - destruct (splitChar sep r) as [|p ps]; [contradiction|].
    destruct ps as [|q qs]; simpl in *; now rewrite <- IH.
Qed.

(** X20. The path of a folder file in the archive.  For a relative path
    [dir/fileName], where [fileName] holds no slash and [dir] is not
    empty, the entry is written at [dir], a slash, and the file name
    with its extension replaced: the folders are kept as they are, dots
    in folder names included.  A path without slash is treated as a
    name alone, and so is a path whose folder part is empty: its
    leading slash is dropped. *)
Theorem folderPathOf_keeps_folders (suffix dir fileName : string) :
  isSlashFree fileName = true ->
  folderPathOf suffix fileName = stripExtension fileName ++ suffix
  /\ folderPathOf suffix (dir ++ "/" ++ fileName)
     = if String.eqb dir "" then stripExtension fileName ++ suffix
       else dir ++ "/" ++ stripExtension fileName ++ suffix.
Proof.
  intros Hfree; unfold isSlashFree in Hfree; split.
  - unfold folderPathOf; cbv zeta.
    now rewrite (splitChar_whole _ _ Hfree).
  - unfold folderPathOf; cbv zeta.
    change (dir ++ "/" ++ fileName) with (dir ++ String "/"%char fileName).
    rewrite splitChar_append, (splitChar_whole _ _ Hfree).
    rewrite last_last, removelast_last.
    change "/" with (String "/"%char "") at 1.
    now rewrite join_splitChar.
Qed.

Lemma folderPathOf_keeps_folders_witness :
  folderPathOf ".txt" ("my.docs/v1.2" ++ "/" ++ "report.final.pdf")
  = "my.docs/v1.2/report.final.txt"
  /\ folderPathOf ".txt" ("" ++ "/" ++ "report.pdf") = "report.txt".
Proof.
  split.
  - apply (proj2 (folderPathOf_keeps_folders ".txt" "my.docs/v1.2"
                                             "report.final.pdf" eq_refl)).
  - apply (proj2 (folderPathOf_keeps_folders ".txt" "" "report.pdf" eq_refl)).
Defined.

(** ** The report *)

Lemma trimEnd_blank (s : string) :
  sforall isSpaceChar s = true -> trimEnd s = "".
Proof.
  induction s as [|c r IH]; simpl; [reflexivity|].
  intros H; apply andb_prop in H; destruct H as [Hc Hr].
  now rewrite (IH Hr), Hc.
Qed.

Lemma trimEnd_padding (s blank : string) :
  sforall isSpaceChar blank = true -> trimEnd (s ++ blank) = trimEnd s.
Proof.
  intros H; induction s as [|c r IH]; simpl.
  - now apply trimEnd_blank.
  - now rewrite IH.
Qed.

Lemma trimEnd_append (s t : string) :
  trimEnd t <> "" -> trimEnd (s ++ t) = s ++ trimEnd t.
Proof.
  intros H; induction s as [|c r IH]; simpl; [reflexivity|].
  rewrite IH; destruct (r ++ trimEnd t) eqn:E; [|reflexivity].
  destruct r; simpl in E; [contradiction | discriminate].
Qed.

(** A text that ends in no white space stays so behind any text. *)
Lemma tight_append (s t : string) :
  trimEnd t = t /\ t <> "" -> trimEnd (s ++ t) = s ++ t /\ s ++ t <> "".
Proof.
  intros [Ht Hne]; split.
  - rewrite trimEnd_append; rewrite Ht; [reflexivity | assumption].
  - destruct s; simpl; [assumption | discriminate].
Qed.

Lemma trimStart_report (r q : string) :
  trimStart (nl ++ ("AI Analysis for: " ++ r) ++ q)
  = ("AI Analysis for: " ++ r) ++ q.
Proof. reflexivity. Qed.

Lemma detectLanguage_tight (text : string) :
  trimEnd (detectLanguage text) = detectLanguage text
  /\ detectLanguage text <> "".
Proof.
  unfold detectLanguage.
  destruct (languageScores (firstn 100 (nonWordSplit text)))
    as [[englishScore spanishScore] frenchScore].
  destruct (pickLanguage_cases englishScore spanishScore frenchScore)
    as [-> | [-> | ->]]; split; (reflexivity || discriminate).
Qed.

(** X21. The report written beside an analysed file is the template
    without its padding: for the analysis of any text it starts with
    the line [AI Analysis for:] and the name of the file and ends with
    the language, and trimming takes nothing off the name, the summary
    or the keywords. *)
Theorem analysisContent_exact (file : ConvertedFile.t) (text : string) :
  analysisContent file (analyzeTextWithAI text)
  = reportText (ConvertedFile.name file) (analyzeTextWithAI text).
Proof.
  assert (Htight :
            trimEnd (reportText (ConvertedFile.name file)
                                (analyzeTextWithAI text))
            = reportText (ConvertedFile.name file) (analyzeTextWithAI text)).
  { unfold reportText.
    repeat (apply tight_append).
    apply detectLanguage_tight. }
  unfold analysisContent, trim.
  replace (nl ++ "AI Analysis for: " ++ ConvertedFile.name file ++ nl
              ++ repeat "=" 50 ++ nl ++ nl ++ "Summary:" ++ nl
              ++ summary (analyzeTextWithAI text) ++ nl ++ nl
              ++ "Keywords: " ++ join ", " (keywords (analyzeTextWithAI text))
              ++ nl
              ++ "Sentiment: "
              ++ sentimentText (sentiment (analyzeTextWithAI text)) ++ nl
              ++ "Language: " ++ language (analyzeTextWithAI text) ++ nl
              ++ "        ")
    with (nl ++ reportText (ConvertedFile.name file) (analyzeTextWithAI text)
             ++ nl ++ "        ")
    by (unfold reportText; now rewrite !append_assoc).
  unfold reportText at 1; rewrite trimStart_report.
  fold (reportText (ConvertedFile.name file) (analyzeTextWithAI text)).
  now rewrite trimEnd_padding.
Qed.

End Names.

(* ================================================================== *)
(** * The component: a batch of files, and the archive *)
(* ================================================================== *)

Section Batch.
Variable P : Platform.
Variable Date_now : nat -> N.
Variable webkitRelativePath : File -> string.

Lemma batchError_cons (file : File) (files : list File)
      (before : option string) :
  batchError P (file :: files) before
  = batchError P files
      (if converts P file then before
       else Some ("Failed to convert " ++ FileConverter.name file ++ ": "
                    ++ failureMessage file)).
Proof.
  unfold batchError; simpl.
  destruct (converts P file); simpl; [reflexivity|].
  destruct (rev (filter (fun f => negb (converts P f)) files));
    reflexivity.
Qed.

(** ** The ids of a batch *)

Lemma string_of_uint_no_dash (d : Decimal.uint) :
  sforall (fun c => negb (Ascii.eqb c "-"%char)) (NilEmpty.string_of_uint d)
  = true.
Proof.
  induction d; simpl; auto.
Qed.

Lemma decimal_inj (a b : N) : decimal a = decimal b -> a = b.
Proof.
  unfold decimal; intros E.
  apply DecimalN.Unsigned.to_uint_inj.
  pose proof (NilEmpty.usu (N.to_uint a)) as Ha.
  rewrite E, NilEmpty.usu in Ha; now injection Ha.
Qed.

Lemma after_dash (a1 a2 b1 b2 : string) :
  sforall (fun c => negb (Ascii.eqb c "-"%char)) a1 = true ->
  sforall (fun c => negb (Ascii.eqb c "-"%char)) a2 = true ->
  a1 ++ "-" ++ b1 = a2 ++ "-" ++ b2 -> b1 = b2.
Proof.
  revert a2; induction a1 as [|c a1 IH]; intros [|d a2] H1 H2 E;
    simpl in *.
  - now injection E.
  - injection E as <- _; discriminate H2.
  - injection E as -> _; discriminate H1.
  - injection E as _ E.
    apply andb_prop in H1, H2; apply (IH a2); tauto.
Qed.

Lemma batchId_inj (i j : nat) :
  batchId Date_now i = batchId Date_now j -> i = j.
Proof.
  unfold batchId; intros E.
  apply after_dash in E; try apply string_of_uint_no_dash.
  apply decimal_inj in E; now apply Nat2N.inj.
Qed.

(** ** The loop *)

Lemma processLoop_outcome (isFromFolder : bool) :
  forall (files : list File) (i : nat) (results : list ConvertedFile.t)
         (before : option string),
  exists added,
    processLoop P Date_now webkitRelativePath files i isFromFolder results
                before
    = ((results ++ added)%list, batchError P files before)
    /\ Forall2 (resultOf P isFromFolder) added (filter (converts P) files)
    /\ NoDup (map ConvertedFile.id added)
    /\ Forall (fun r => exists j, i <= j < i + List.length files
                                  /\ ConvertedFile.id r = batchId Date_now j)
              added.
Proof.
  induction files as [|file rest IH]; intros i results before.
  - exists []; simpl; rewrite app_nil_r; repeat split; constructor.
  - rewrite batchError_cons; unfold converts at 1 2; simpl.
    destruct (convertFileToText P file) as [text|message] eqn:Hconv.
    + destruct (IH (S i)
                   (push results
                         [convertedFileOf Date_now webkitRelativePath file i
                                          isFromFolder text])
                   before) as (added & Hloop & Hres & Hnd & Hids).
      exists (convertedFileOf Date_now webkitRelativePath file i isFromFolder
                              text :: added).
      unfold push in Hloop; rewrite <- app_assoc in Hloop; simpl in Hloop.
      split; [exact Hloop | split; [|split]].
      * constructor; [|assumption].
        unfold resultOf; simpl; auto.
      * simpl; constructor; [|assumption].
        intros Hin; apply in_map_iff in Hin.
        destruct Hin as (r & E & Hr).
        rewrite Forall_forall in Hids.
        destruct (Hids r Hr) as (j & Hj & Ej).
        rewrite Ej in E; apply batchId_inj in E; lia.
      * constructor.
        -- exists i; split; [lia | reflexivity].
        -- revert Hids; apply Forall_impl; intros r (j & Hj & E).
           exists j; split; [lia | assumption].
    + destruct (throw_message P file message Hconv) as [_ ->].
      destruct (IH (S i) results
                   (Some ("Failed to convert " ++ FileConverter.name file
                            ++ ": " ++ failureMessage file)))
        as (added & Hloop & Hres & Hnd & Hids).
      exists added; split; [exact Hloop | split; [assumption|split]];
        [assumption|].
      revert Hids; apply Forall_impl; intros r (j & Hj & E).
      exists j; split; [lia | assumption].
Qed.

(** X22. [processFiles] adds to the list one entry for each file of the
    batch whose conversion succeeds, in the order of the batch, with
    the name, the size and the converted text of that file and no
    analysis yet; a file that fails is skipped and the files after it
    are still converted.  The entries there before and the selected
    file are untouched.  Of the failures only the last one is reported:
    its message replaces any earlier one, and without a failure the
    message from before the batch stays. *)
Theorem processFiles_outcome (files : list File) (isFromFolder : bool)
        (st : State) :
  exists added,
    convertedFiles
      (processFiles P Date_now webkitRelativePath files isFromFolder st)
    = (convertedFiles st ++ added)%list
    /\ Forall2 (resultOf P isFromFolder) added (filter (converts P) files)
    /\ error (processFiles P Date_now webkitRelativePath files isFromFolder st)
       = batchError P files (error st)
    /\ selectedFile
         (processFiles P Date_now webkitRelativePath files isFromFolder st)
       = selectedFile st.
Proof.
  unfold processFiles.
  destruct (processLoop_outcome isFromFolder files 0 [] (error st))
    as (added & Hloop & Hres & _).
  rewrite Hloop; exists added; simpl; auto.
Qed.

(** X23. The files that one call of [processFiles] adds have pairwise
    different ids, whatever the clock reads: the id of the file at
    index [i] of the batch is the time in milliseconds, a dash and
    [i], and the index alone tells two of them apart. *)
Theorem processFiles_ids_distinct (files : list File) (isFromFolder : bool)
        (st : State) :
  exists added,
    convertedFiles
      (processFiles P Date_now webkitRelativePath files isFromFolder st)
    = (convertedFiles st ++ added)%list
    /\ NoDup (map ConvertedFile.id added)
    /\ Forall (fun r => exists j, j < List.length files
                                  /\ ConvertedFile.id r = batchId Date_now j)
              added.
Proof.
  unfold processFiles.
  destruct (processLoop_outcome isFromFolder files 0 [] (error st))
    as (added & Hloop & _ & Hnd & Hids).
  rewrite Hloop; exists added; simpl; repeat split; try assumption.
  revert Hids; apply Forall_impl; intros r (j & Hj & E).
  exists j; split; [lia | assumption].
Qed.

(** ** One file of a fresh batch *)

(** What a batch on an empty list leaves. *)
Lemma fresh_batch (files : list File) (isFromFolder : bool) (st : State) :
  convertedFiles st = [] ->
  NoDup (map ConvertedFile.id
             (convertedFiles
                (processFiles P Date_now webkitRelativePath files
                              isFromFolder st)))
  /\ Forall (fun r => ConvertedFile.aiAnalysis r = None)
            (convertedFiles
               (processFiles P Date_now webkitRelativePath files
                             isFromFolder st)).
Proof.
  intros Hempty; unfold processFiles.
  destruct (processLoop_outcome isFromFolder files 0 [] (error st))
    as (added & Hloop & Hres & Hnd & _).
  rewrite Hloop, Hempty; simpl; split; [assumption|].
  clear Hloop; induction Hres as [|r f rs fs Hr _ IH]; constructor.
  - apply Hr.
  - apply IH; now apply NoDup_cons_iff in Hnd.
Qed.

Lemma same_id_same_file (l : list ConvertedFile.t) (f g : ConvertedFile.t) :
  NoDup (map ConvertedFile.id l) -> In f l -> In g l ->
  ConvertedFile.id g = ConvertedFile.id f -> g = f.
Proof.
  induction l as [|x l IH]; simpl; intros Hnd Hf Hg E; [contradiction|].
  apply NoDup_cons_iff in Hnd; destruct Hnd as [Hx Hnd].
  destruct Hf as [<-|Hf], Hg as [<-|Hg]; auto.
  - exfalso; apply Hx; rewrite <- E; now apply in_map.
  - exfalso; apply Hx; rewrite E; now apply in_map.
Qed.

Lemma analyzeWithAI_none (l : list ConvertedFile.t)
      (file : ConvertedFile.t) :
  Forall (fun r => ConvertedFile.aiAnalysis r = None) l ->
  (forall g, In g l -> ConvertedFile.id g <> ConvertedFile.id file) ->
  filter analysed (convertedFiles (analyzeWithAI file (mkState l None None)))
  = [].
Proof.
  unfold analyzeWithAI; cbn [convertedFiles].
  induction l as [|x l IH]; intros Hnone Hids; [reflexivity|].
  apply Forall_cons_iff in Hnone; destruct Hnone as [Hx Hnone].
  cbn [map filter].
  destruct (String.eqb_spec (ConvertedFile.id x) (ConvertedFile.id file))
    as [E|_]; [destruct (Hids x (or_introl eq_refl) E)|].
  unfold analysed at 1; rewrite Hx.
  apply IH; [assumption | intros g Hg; apply Hids; now right].
Qed.

Lemma analyzeWithAI_count (l : list ConvertedFile.t) (file : ConvertedFile.t) :
  NoDup (map ConvertedFile.id l) ->
  Forall (fun r => ConvertedFile.aiAnalysis r = None) l ->
  In file l ->
  List.length
    (filter analysed
            (convertedFiles (analyzeWithAI file (mkState l None None))))
  = 1.
Proof.
  induction l as [|x l IH]; intros Hnd Hnone Hin; [contradiction|].
  apply NoDup_cons_iff in Hnd; destruct Hnd as [Hx Hnd].
  apply Forall_cons_iff in Hnone; destruct Hnone as [Hxnone Hnone].
  pose proof (analyzeWithAI_none l file Hnone) as Hrest.
  unfold analyzeWithAI in *; cbn [convertedFiles] in *.
  cbn [map filter].
  destruct (String.eqb_spec (ConvertedFile.id x) (ConvertedFile.id file))
    as [E|Hne].
  - unfold analysed at 1; cbn [ConvertedFile.aiAnalysis List.length].
    rewrite Hrest; [reflexivity|].
    intros g Hg Eg; apply Hx; rewrite E, <- Eg; now apply in_map.
  - unfold analysed at 1; rewrite Hxnone.
    destruct Hin as [->|Hin]; [contradiction | now apply IH].
Qed.

(** X25. After a batch on an empty list, [analyzeWithAI] on one of the
    files marks that file and no other: the list keeps its length and
    its ids in order, the file with the id of the chosen one carries
    the analysis of its text, and it is the only analysed file. *)
Theorem analyzeWithAI_one_file (files : list File) (isFromFolder : bool)
        (st : State) (file : ConvertedFile.t) :
  convertedFiles st = [] ->
  In file
     (convertedFiles
        (processFiles P Date_now webkitRelativePath files isFromFolder st)) ->
  let before :=
    processFiles P Date_now webkitRelativePath files isFromFolder st in
  let after := analyzeWithAI file before in
  map ConvertedFile.id (convertedFiles after)
  = map ConvertedFile.id (convertedFiles before)
  /\ (forall g, In g (convertedFiles after) ->
                if String.eqb (ConvertedFile.id g) (ConvertedFile.id file)
                then ConvertedFile.aiAnalysis g
                     = Some (analyzeTextWithAI (ConvertedFile.textContent file))
                     /\ ConvertedFile.textContent g
                        = ConvertedFile.textContent file
                else ConvertedFile.aiAnalysis g = None
                     /\ In g (convertedFiles before))
  /\ List.length (filter analysed (convertedFiles after)) = 1.
Proof.
  intros Hempty Hin; cbv zeta.
  destruct (fresh_batch files isFromFolder st Hempty) as [Hnd Hnone].
  pose proof (analyzeWithAI_count _ file Hnd Hnone Hin) as Hcount.
  remember (convertedFiles
              (processFiles P Date_now webkitRelativePath files
                            isFromFolder st)) as l eqn:El.
  unfold analyzeWithAI in *; cbn [convertedFiles] in *; rewrite <- El.
  split; [|split; [|exact Hcount]].
  - rewrite map_map; apply map_ext; intros g.
    destruct (String.eqb _ _); reflexivity.
  - intros g Hg; apply in_map_iff in Hg; destruct Hg as (g0 & <- & Hg0).
    destruct (String.eqb_spec (ConvertedFile.id g0) (ConvertedFile.id file))
      as [E|Hne]; cbn [ConvertedFile.id].
    + rewrite E, String.eqb_refl;
        cbn [ConvertedFile.aiAnalysis ConvertedFile.textContent].
      split; [reflexivity|].
      now rewrite (same_id_same_file l file g0 Hnd Hin Hg0 E).
    + apply String.eqb_neq in Hne; rewrite Hne.
      rewrite Forall_forall in Hnone; auto.
Qed.

Lemma removeFile_length (l : list ConvertedFile.t) (file : ConvertedFile.t) :
  NoDup (map ConvertedFile.id l) -> In file l ->
  List.length
    (filter (fun f => negb (String.eqb (ConvertedFile.id f)
                                       (ConvertedFile.id file))) l) + 1
  = List.length l.
Proof.
  induction l as [|x l IH]; intros Hnd Hin; [contradiction|].
  apply NoDup_cons_iff in Hnd; destruct Hnd as [Hx Hnd].
  simpl.
  destruct (String.eqb_spec (ConvertedFile.id x) (ConvertedFile.id file))
    as [E|Hne]; simpl.
  - rewrite forallb_filter_id; [lia|].
    apply forallb_forall; intros g Hg.
    apply negb_true_iff, String.eqb_neq; intros Eg.
    apply Hx; rewrite E, <- Eg; now apply in_map.
  - destruct Hin as [->|Hin]; [contradiction|].
    rewrite <- (IH Hnd Hin); lia.
Qed.

(** X26. After a batch on an empty list, [removeFile] with the id of
    one of the files removes that file and no other: the list is one
    shorter, the file is gone and every other file is still there. *)
Theorem removeFile_one_file (files : list File) (isFromFolder : bool)
        (st : State) (file : ConvertedFile.t) :
  convertedFiles st = [] ->
  In file
     (convertedFiles
        (processFiles P Date_now webkitRelativePath files isFromFolder st)) ->
  let before :=
    processFiles P Date_now webkitRelativePath files isFromFolder st in
  let after := removeFile (ConvertedFile.id file) before in
  List.length (convertedFiles after) + 1 = List.length (convertedFiles before)
  /\ ~ In file (convertedFiles after)
  /\ (forall g, In g (convertedFiles before) -> g <> file ->
                In g (convertedFiles after)).
Proof.
  intros Hempty Hin; cbv zeta.
  destruct (fresh_batch files isFromFolder st Hempty) as [Hnd _].
  unfold removeFile; cbn [convertedFiles].
  split; [|split].
  - now apply removeFile_length.
  - rewrite filter_In; intros [_ H].
    now rewrite String.eqb_refl in H.
  - intros g Hg Hne; apply filter_In; split; [assumption|].
    apply negb_true_iff, String.eqb_neq; intros E.
    apply Hne; now apply (same_id_same_file _ file g Hnd Hin Hg).
Qed.

End Batch.

Section Archive.

Lemma endsWith_append (a b suffix : string) :
  endsWith b suffix = true -> endsWith (a ++ b) suffix = true.
Proof.
  unfold endsWith; rewrite srev_append; apply prefix_append.
Qed.

Lemma folderPathOf_suffix (suffix relativePath : string) :
  endsWith suffix ".txt" = true ->
  endsWith (folderPathOf suffix relativePath) ".txt" = true.
Proof.
  intros H; unfold folderPathOf; cbv zeta.
  destruct (String.eqb _ ""); repeat apply endsWith_append; assumption.
Qed.

Lemma writes_of_file (file : ConvertedFile.t) :
  List.length (if ConvertedFile.isFromFolder file then folderWrites file
               else individualWrites file)
  = 1 + (if analysed file then 1 else 0)
  /\ Forall (fun w => endsWith (fst w) ".txt" = true)
            (if ConvertedFile.isFromFolder file then folderWrites file
             else individualWrites file).
Proof.
  unfold folderWrites, individualWrites, analysed.
  destruct (ConvertedFile.isFromFolder file),
    (ConvertedFile.aiAnalysis file); split; try reflexivity;
    repeat constructor; simpl;
    try (apply folderPathOf_suffix; reflexivity);
    apply endsWith_append; reflexivity.
Qed.

(** X24. [downloadAllAsZip] calls [zip.file] once for every converted
    file and once more for every analysed file, each time with a path
    that ends in [.txt]; the calls for the files added one by one come
    first, those for the files of folders after them.  The count is of
    the calls: two of them with one path, as for [a.pdf] and [a.docx],
    name the same entry of the archive. *)
Theorem zipWrites_calls (files : list ConvertedFile.t) :
  List.length (zipWrites files)
  = List.length files + List.length (filter analysed files)
  /\ Forall (fun w => endsWith (fst w) ".txt" = true) (zipWrites files)
  /\ zipWrites files
     = (zipWrites (filter (fun f => negb (ConvertedFile.isFromFolder f)) files)
          ++ zipWrites (filter ConvertedFile.isFromFolder files))%list.
Proof.
  unfold zipWrites; cbv zeta; repeat split.
  - rewrite length_app.
    induction files as [|f files IH]; [reflexivity|].
    destruct (writes_of_file f) as [Hlen _].
    cbn [filter]; destruct (ConvertedFile.isFromFolder f); cbn [negb];
      cbn [flat_map]; rewrite length_app, Hlen;
      destruct (analysed f); cbn [List.length]; lia.
  - apply Forall_app; split; apply Forall_flat_map, Forall_forall;
      intros f Hf; apply filter_In in Hf; destruct Hf as [_ Hf];
      destruct (writes_of_file f) as [_ Hall];
      destruct (ConvertedFile.isFromFolder f); try discriminate; assumption.
  - assert (Hnone : forall (p : ConvertedFile.t -> bool) l,
               filter p (filter (fun f => negb (p f)) l) = []).
    { intros p l; induction l as [|x l IHl]; [reflexivity|]; simpl.
      destruct (p x) eqn:E; simpl; [|rewrite E]; assumption. }
    assert (Hnone' : forall (p : ConvertedFile.t -> bool) l,
               filter (fun f => negb (p f)) (filter p l) = []).
    { intros p l; induction l as [|x l IHl]; [reflexivity|]; simpl.
      destruct (p x) eqn:E; simpl; [rewrite E|]; assumption. }
    assert (Hsame : forall (p : ConvertedFile.t -> bool) l,
               filter p (filter p l) = filter p l).
    { intros p l; induction l as [|x l IHl]; [reflexivity|]; simpl.
      destruct (p x) eqn:E; simpl; [rewrite E, IHl|]; auto. }
    rewrite Hnone, Hnone', !Hsame; simpl; now rewrite app_nil_r.
Qed.

(** Two files with one base name: two calls with the same path. *)
Example zipWrites_same_path :
  zipWrites [reportPdf; reportDocx]
  = [("report.txt", "pages"); ("report.txt", "letter")].
Proof. reflexivity. Qed.

End Archive.

(** ** The statements on the sample platform *)

Lemma analyzeWithAI_one_file_witness :
  List.length (filter analysed
                      (convertedFiles (analyzeWithAI sampleChosen sampleBatch)))
  = 1.
Proof.
  apply (analyzeWithAI_one_file samplePlatform sampleClock noFolder
           [notesTxt; letterDocx; photoPng] false (mkState [] None None)
           sampleChosen eq_refl).
  vm_compute; tauto.
Defined.

Lemma removeFile_one_file_witness :
  ~ In sampleChosen
       (convertedFiles (removeFile (ConvertedFile.id sampleChosen) sampleBatch)).
Proof.
  assert (Hin : In sampleChosen (convertedFiles sampleBatch))
    by (vm_compute; tauto).
  destruct (removeFile_one_file samplePlatform sampleClock noFolder
              [notesTxt; letterDocx; photoPng] false (mkState [] None None)
              sampleChosen eq_refl Hin) as (_ & H & _).
  exact H.
Defined.
